(** * worker-vllm: the serverless handler of [src/handler.py]

    A shallow embedding of the request adapter (the two job handlers and
    the sampling-parameter validation) and of the autoscaling predicate,
    with the properties the specification states about them.

    Layout: Python values and the built-ins the handler calls; the
    validation function; the engine-side data; the store shared with the
    engine and the handlers over it; then the theorems. *)

From Stdlib Require Import ZArith String Ascii List Lia.
From Stdlib Require Import Floats.SpecFloat.
From stdpp Require Import base option list gmap strings pretty.

Open Scope Z_scope.

(** ** Python values

    A job arrives as decoded JSON, so the values the handler sees are
    [None], booleans, unbounded integers, binary64 floats, strings, lists
    and string-keyed dicts. *)

#[warnings="-register-all"]
Inductive pyval : Type :=
| PNone
| PBool (b : bool)
| PInt (z : Z)
| PFloat (f : spec_float)
| PStr (s : string)
| PList (l : list pyval)
| PDict (d : gmap string pyval).

(** The exceptions that occur in the handler. [EngineError] stands for
    whatever the engine or its constructors raise on their own. *)
Inductive exn : Type :=
| KeyError (key : string)
| TypeError
| ValueError
| OverflowError
| AttributeError
| IndexError
| EngineError (msg : string).

Inductive result (A : Type) : Type :=
| Ok (a : A)
| Raise (e : exn).
Arguments Ok {A} a.
Arguments Raise {A} e.

#[global] Instance result_ret : MRet result := fun _ a => Ok a.
#[global] Instance result_bind : MBind result := fun _ _ k m =>
  match m with
  | Ok a => k a
  | Raise e => Raise e
  end.

(** ** Floats: binary64 through [SpecFloat] *)

Module Float64.

Definition prec : Z := 53.
Definition emax : Z := 1024.

Definition inf (neg : bool) : spec_float := S754_infinity neg.
Definition nan : spec_float := S754_nan.
Definition zero (neg : bool) : spec_float := S754_zero neg.

(** Nearest-even rounding of the integer [z]; infinite when [z] is
    beyond the largest finite double. *)
Definition of_Z (z : Z) : spec_float := binary_normalize prec emax z 0 false.

(** Nearest-even rounding of [(-1)^neg * m * 10^e], as [strtod] does. *)
Definition of_decimal (neg : bool) (m e : Z) : spec_float :=
  match m with
  | Zpos p =>
      if 0 <=? e
      then binary_normalize prec emax (cond_Zopp neg (m * 10 ^ e)) 0 false
      else SFdiv prec emax (S754_finite neg p 0)
                           (S754_finite false (Z.to_pos (10 ^ (- e))) 0)
  | _ => zero neg
  end.

(** Truncation toward zero of a finite float. *)
Definition trunc (neg : bool) (m : positive) (e : Z) : Z :=
  cond_Zopp neg (if 0 <=? e then Z.shiftl (Zpos m) e else Z.shiftr (Zpos m) (- e)).

Definition is_zero (f : spec_float) : bool :=
  match f with
  | S754_zero _ => true
  | _ => false
  end.

End Float64.

(** ** Reading numbers out of strings

    The grammar [int] and [float] accept on an ASCII string: surrounding
    whitespace, an optional sign, decimal digits in which single
    underscores may separate digits; for floats also a fraction, an
    exponent and the words inf, infinity and nan in any case. Digits and
    spaces outside ASCII, and the interpreter's limit on the length of a
    decimal integer, are left out: they change which strings convert, not
    what happens to a string that does not.

    [str_lower] lowers the ASCII letters. On the two comparisons the
    handlers make it agrees with [str.lower]: no character outside ASCII
    lowers to a letter of the two llama names. *)

Module Lexer.

Definition code (c : ascii) : Z := Z.of_nat (nat_of_ascii c).

Definition is_space (c : ascii) : bool :=
  let n := code c in
  ((9 <=? n) && (n <=? 13)) || ((28 <=? n) && (n <=? 32)).

Definition is_digit (c : ascii) : bool :=
  let n := code c in (48 <=? n) && (n <=? 57).

Definition digit_val (c : ascii) : Z := code c - 48.

Definition lower (c : ascii) : ascii :=
  let n := code c in
  if (65 <=? n) && (n <=? 90) then ascii_of_nat (Z.to_nat (n + 32)) else c.

Fixpoint lstrip (cs : list ascii) : list ascii :=
  match cs with
  | c :: cs' => if is_space c then lstrip cs' else cs
  | [] => []
  end.

Definition strip (cs : list ascii) : list ascii :=
  rev (lstrip (rev (lstrip cs))).

(** Digits with single underscores between them: the value read and the
    number of digits, or nothing when the run is empty or misplaces an
    underscore. [after_digit] tells whether the last character read was
    a digit. *)
Fixpoint digit_run (acc : Z) (count : Z) (after_digit : bool)
                   (cs : list ascii) : option (Z * Z) :=
  match cs with
  | [] => if after_digit then Some (acc, count) else None
  | c :: cs' =>
      if is_digit c then digit_run (10 * acc + digit_val c) (count + 1) true cs'
      else if Ascii.eqb c "_" then
        if after_digit then digit_run acc count false cs' else None
      else None
  end.

Definition digits (cs : list ascii) : option (Z * Z) := digit_run 0 0 false cs.

(** As [digits], but an empty run reads as zero with no digit. *)
Definition digits_opt (cs : list ascii) : option (Z * Z) :=
  match cs with
  | [] => Some (0, 0)
  | _ => digits cs
  end.

Definition split_sign (cs : list ascii) : bool * list ascii :=
  match cs with
  | c :: cs' =>
      if Ascii.eqb c "-" then (true, cs')
      else if Ascii.eqb c "+" then (false, cs')
      else (false, cs)
  | [] => (false, [])
  end.

(** The part before the first character satisfying [p], and the part
    after it when there is one. *)
Fixpoint split_at (p : ascii -> bool) (cs : list ascii)
  : list ascii * option (list ascii) :=
  match cs with
  | [] => ([], None)
  | c :: cs' =>
      if p c then ([], Some cs')
      else let '(l, r) := split_at p cs' in (c :: l, r)
  end.

Definition parse_int (s : string) : option Z :=
  let '(neg, body) := split_sign (strip (list_ascii_of_string s)) in
  match digits body with
  | Some (v, _) => Some (cond_Zopp neg v)
  | None => None
  end.

Definition is_exp_mark (c : ascii) : bool := Ascii.eqb (lower c) "e".
Definition is_point (c : ascii) : bool := Ascii.eqb c ".".

Definition parse_exponent (cs : option (list ascii)) : option Z :=
  match cs with
  | None => Some 0
  | Some ds =>
      let '(neg, body) := split_sign ds in
      match digits body with
      | Some (v, _) => Some (cond_Zopp neg v)
      | None => None
      end
  end.

Definition parse_decimal (neg : bool) (body : list ascii) : option spec_float :=
  let '(mant, expo) := split_at is_exp_mark body in
  let '(ipart, fpart) := split_at is_point mant in
  match digits_opt ipart, digits_opt (default [] fpart), parse_exponent expo with
  | Some (iv, ic), Some (fv, fc), Some e =>
      if ic + fc =? 0 then None
      else Some (Float64.of_decimal neg (iv * 10 ^ fc + fv) (e - fc))
  | _, _, _ => None
  end.

Definition parse_float (s : string) : option spec_float :=
  let '(neg, body) := split_sign (strip (list_ascii_of_string s)) in
  let word := string_of_list_ascii (map lower body) in
  if String.eqb word "inf" || String.eqb word "infinity" then Some (Float64.inf neg)
  else if String.eqb word "nan" then Some Float64.nan
  else parse_decimal neg body.

Definition str_lower (s : string) : string :=
  string_of_list_ascii (map lower (list_ascii_of_string s)).

End Lexer.

(** ** The built-ins the handler calls *)

(** [int(value)] *)
Definition py_int (value : pyval) : result pyval :=
  match value with
  | PBool b => Ok (PInt (if b then 1 else 0))
  | PInt z => Ok (PInt z)
  | PFloat (S754_zero _) => Ok (PInt 0)
  | PFloat (S754_finite neg m e) => Ok (PInt (Float64.trunc neg m e))
  | PFloat (S754_infinity _) => Raise OverflowError
  | PFloat S754_nan => Raise ValueError
  | PStr s =>
      match Lexer.parse_int s with
      | Some z => Ok (PInt z)
      | None => Raise ValueError
      end
  | PNone | PList _ | PDict _ => Raise TypeError
  end.

(** [float(value)] *)
Definition py_float (value : pyval) : result pyval :=
  match value with
  | PBool b => Ok (PFloat (Float64.of_Z (if b then 1 else 0)))
  | PInt z =>
      match Float64.of_Z z with
      | S754_infinity _ => Raise OverflowError
      | f => Ok (PFloat f)
      end
  | PFloat f => Ok (PFloat f)
  | PStr s =>
      match Lexer.parse_float s with
      | Some f => Ok (PFloat f)
      | None => Raise ValueError
      end
  | PNone | PList _ | PDict _ => Raise TypeError
  end.

(** [isinstance(value, bool)] *)
Definition is_bool (value : pyval) : bool :=
  match value with
  | PBool _ => true
  | _ => false
  end.

(** Truth value, as tested by [if value:]. *)
Definition py_truthy (value : pyval) : bool :=
  match value with
  | PNone => false
  | PBool b => b
  | PInt z => negb (z =? 0)
  | PFloat f => negb (Float64.is_zero f)
  | PStr s => negb (String.eqb s "")
  | PList l => negb (Nat.eqb (length l) 0)
  | PDict d => negb (Nat.eqb (size d) 0)
  end.

(** [obj.get(key, dflt)]: only dicts have the method. *)
Definition py_get (obj : pyval) (key : string) (dflt : pyval) : result pyval :=
  match obj with
  | PDict d => Ok (default dflt (d !! key))
  | _ => Raise AttributeError
  end.

(** [obj[key]] for a string key. *)
Definition py_getitem (obj : pyval) (key : string) : result pyval :=
  match obj with
  | PDict d =>
      match d !! key with
      | Some v => Ok v
      | None => Raise (KeyError key)
      end
  | _ => Raise TypeError
  end.

(** ** Validation (handler.py, lines 64-111) *)

Definition validate_int (value dflt : pyval) : result pyval :=
  match py_int value with
  | Ok v => Ok v
  | Raise TypeError | Raise ValueError => Ok dflt
  | Raise e => Raise e
  end.

Definition validate_float (value dflt : pyval) : result pyval :=
  match py_float value with
  | Ok v => Ok v
  | Raise TypeError | Raise ValueError => Ok dflt
  | Raise e => Raise e
  end.

Definition validate_bool (value dflt : pyval) : pyval :=
  if is_bool value then value else dflt.

Definition float_0 : pyval := PFloat (Float64.zero false).
Definition float_1 : pyval := PFloat (Float64.of_Z 1).

(** The dict built on line 98, from the twelve locals. *)
Definition config_of (n best_of presence_penalty frequency_penalty temperature
                      top_p top_k use_beam_search stop ignore_eos max_tokens
                      logprobs : pyval) : gmap string pyval :=
  <["n" := n]>
  (<["best_of" := best_of]>
  (<["presence_penalty" := presence_penalty]>
  (<["frequency_penalty" := frequency_penalty]>
  (<["temperature" := temperature]>
  (<["top_p" := top_p]>
  (<["top_k" := top_k]>
  (<["use_beam_search" := use_beam_search]>
  (<["stop" := stop]>
  (<["ignore_eos" := ignore_eos]>
  (<["max_tokens" := max_tokens]>
  (<["logprobs" := logprobs]> ∅))))))))))).

Definition validate_sampling_params (sampling_params : pyval)
  : result (gmap string pyval) :=
  v ← py_get sampling_params "n" PNone;
  n ← validate_int v (PInt 1);
  v ← py_get sampling_params "best_of" PNone;
  best_of ← validate_int v PNone;
  v ← py_get sampling_params "presence_penalty" PNone;
  presence_penalty ← validate_float v float_0;
  v ← py_get sampling_params "frequency_penalty" PNone;
  frequency_penalty ← validate_float v float_0;
  v ← py_get sampling_params "temperature" PNone;
  temperature ← validate_float v float_1;
  v ← py_get sampling_params "top_p" PNone;
  top_p ← validate_float v float_1;
  v ← py_get sampling_params "top_k" PNone;
  top_k ← validate_int v (PInt (-1));
  v ← py_get sampling_params "use_beam_search" PNone;
  let use_beam_search := validate_bool v (PBool false) in
  stop ← py_get sampling_params "stop" PNone;
  v ← py_get sampling_params "ignore_eos" PNone;
  let ignore_eos := validate_bool v (PBool false) in
  v ← py_get sampling_params "max_tokens" PNone;
  max_tokens ← validate_int v (PInt 256);
  v ← py_get sampling_params "logprobs" PNone;
  logprobs ← validate_float v PNone;
  mret (config_of n best_of presence_penalty frequency_penalty temperature
                  top_p top_k use_beam_search stop ignore_eos max_tokens
                  logprobs).

(** The keys of the returned dict. *)
Definition config_fields : gset string :=
  list_to_set ["n"; "best_of"; "presence_penalty"; "frequency_penalty";
               "temperature"; "top_p"; "top_k"; "use_beam_search"; "stop";
               "ignore_eos"; "max_tokens"; "logprobs"].

(** ** Reading the validated configuration *)

(** [d.get(key)] *)
Definition get (d : gmap string pyval) (key : string) : pyval := default PNone (d !! key).

(** No conversion of a numeric field overflows. *)
Definition conversions_fit (d : gmap string pyval) : Prop :=
  Forall (fun key => py_int (get d key) <> Raise OverflowError)
         ["n"; "best_of"; "top_k"; "max_tokens"] /\
  Forall (fun key => py_float (get d key) <> Raise OverflowError)
         ["presence_penalty"; "frequency_penalty"; "temperature"; "top_p";
          "logprobs"].

(** A mapping and the configuration it validates to. *)
Definition sample_params : gmap string pyval :=
  {[ "stop" := PList [PStr "###"]; "logprobs" := PInt 5;
     "use_beam_search" := PBool true; "ignore_eos" := PInt 1 ]}.

Definition sample_config : gmap string pyval :=
  config_of (PInt 1) PNone float_0 float_0 float_1 float_1 (PInt (-1))
            (PBool true) (PList [PStr "###"]) (PBool false) (PInt 256)
            (PFloat (Float64.of_Z 5)).

(** ** What the engine hands back *)

Record CompletionOutput : Type := {
  text : string;
  token_ids : list Z;
}.

Record RequestOutput : Type := {
  prompt : string;
  prompt_token_ids : list Z;
  outputs : list CompletionOutput;
}.

(** The object built by calling [SamplingParams] with the given keyword
    arguments; [SamplingParams ∅] is the call without arguments. *)
Inductive sampling_config : Type :=
| SamplingParams (kwargs : gmap string pyval).

(** The asynchronous generator returned by [llm.generate], as the finite
    run of what iterating it produces: intermediate states, then either
    exhaustion or an exception. *)
Inductive agen : Type :=
| StopAsyncIteration
| Yield (request_output : RequestOutput) (rest : agen)
| Throw (e : exn).

Fixpoint agen_of_list (states : list RequestOutput) : agen :=
  match states with
  | [] => StopAsyncIteration
  | ro :: rest => Yield ro (agen_of_list rest)
  end.

Inductive template_name : Type :=
| LLAMA_TEMPLATE
| DEFAULT_TEMPLATE.

(** The collaborators the module imports or reads from its environment.
    [templates.py] and the engine are not part of [handler.py]: the
    handlers are stated over any implementation of them. [MODEL_NAME] is
    a string in every module that got past line 32, which calls a string
    method on it. *)
Class Collaborators : Type := {
  MODEL_NAME : string;
  template : template_name -> pyval -> result pyval;
  (** the argument checks of the [SamplingParams] constructor *)
  sampling_params_init : gmap string pyval -> option exn;
  llm_generate : pyval -> sampling_config -> string -> agen;
  (** the identifier [random_uuid()] returns on its [k]-th call *)
  random_uuid : nat -> string;
}.

(** ** The store

    The engine is one long-lived object, shared by every call. Its
    scheduler queues and its metrics dict are read through it; the
    metrics dict is also written by the handlers. *)

Inductive seq_group : Type :=
| SeqGroup (request_id : string).

Inductive printed : Type :=
| PrintText (s : string)
| PrintJobReceived (job : pyval)
| PrintValue (v : pyval)
| PrintSampling (sp : sampling_config).

Record request : Type := {
  req_prompt : pyval;
  req_sampling_params : sampling_config;
  req_id : string;
}.

Record world : Type := {
  waiting : list seq_group;
  swapped : list seq_group;
  metrics : gmap string pyval;
  requests : list request;
  uuids_drawn : nat;
  stdout : list printed;
}.

(** A reference to a dict living in the store. [llm.engine.metrics] is
    the only one the handlers hold. *)
Inductive ref : Type :=
| engine_metrics.

Definition deref (w : world) (r : ref) : gmap string pyval :=
  match r with
  | engine_metrics => metrics w
  end.

(** Computations over the store that may raise. *)
Definition M (A : Type) : Type := world -> result A * world.

#[global] Instance M_ret : MRet M := fun _ a w => (Ok a, w).
#[global] Instance M_bind : MBind M := fun _ _ k m w =>
  match m w with
  | (Ok a, w') => k a w'
  | (Raise e, w') => (Raise e, w')
  end.

Definition raise {A} (e : exn) : M A := fun w => (Raise e, w).

Definition lift {A} (r : result A) : M A := fun w => (r, w).

Definition print (p : printed) : M unit := fun w =>
  (Ok tt, {| waiting := waiting w; swapped := swapped w; metrics := metrics w;
             requests := requests w; uuids_drawn := uuids_drawn w;
             stdout := stdout w ++ [p] |}).

(** [r[key] = v] on a dict of the store. *)
Definition setitem (r : ref) (key : string) (v : pyval) : M unit := fun w =>
  match r with
  | engine_metrics =>
      (Ok tt, {| waiting := waiting w; swapped := swapped w;
                 metrics := <[key := v]> (metrics w);
                 requests := requests w; uuids_drawn := uuids_drawn w;
                 stdout := stdout w |})
  end.

Section Handlers.

Context `{Collaborators}.

Definition draw_uuid : M string := fun w =>
  (Ok (random_uuid (uuids_drawn w)),
   {| waiting := waiting w; swapped := swapped w; metrics := metrics w;
      requests := requests w; uuids_drawn := S (uuids_drawn w);
      stdout := stdout w |}).

(** [llm.generate(prompt, sampling_params, request_id)] *)
Definition generate (p : pyval) (sp : sampling_config) (request_id : string)
  : M agen := fun w =>
  (Ok (llm_generate p sp request_id),
   {| waiting := waiting w; swapped := swapped w; metrics := metrics w;
      requests := requests w ++ [{| req_prompt := p; req_sampling_params := sp;
                                    req_id := request_id |}];
      uuids_drawn := uuids_drawn w; stdout := stdout w |}).

Definition new_SamplingParams (kwargs : gmap string pyval) : result sampling_config :=
  match sampling_params_init kwargs with
  | None => Ok (SamplingParams kwargs)
  | Some e => Raise e
  end.

(** *** concurrency_controller (lines 49-55) *)

Definition concurrency_controller : M bool := fun w =>
  let total_pending_sequences := (length (waiting w) + length (swapped w))%nat in
  let '(_, w') :=
    print (PrintText "vLLM has {total_pending_sequences} pending sequences in its internal queue.") w in
  (Ok (Nat.ltb 30 total_pending_sequences), w').

(** *** prepare_metrics (lines 58-60): the dict itself, not a copy *)

Definition prepare_metrics : M ref := mret engine_metrics.

(** *** The two handlers

    Lines 118-151 of [handler_streaming] and lines 179-212 of [handler]
    are the same text; [issue_request] is that text. It returns the job
    input and the generator. *)

Definition select_template (model_name : string) : template_name :=
  if String.eqb (Lexer.str_lower model_name) "llama-2-7b-chat-hf"
     || String.eqb (Lexer.str_lower model_name) "llama-2-13b-chat-hf"
  then LLAMA_TEMPLATE
  else DEFAULT_TEMPLATE.

(** Lines 133-141 and 194-202. *)
Definition resolve_sampling_params (job_input : pyval) : result sampling_config :=
  sampling_params ← py_get job_input "sampling_params" PNone;
  if py_truthy sampling_params then
    kwargs ← validate_sampling_params sampling_params;
    new_SamplingParams kwargs
  else
    new_SamplingParams ∅.

Definition issue_request (job : pyval) : M (pyval * agen) :=
  _ ← print (PrintJobReceived job);
  job_input ← lift (py_getitem job "input");
  let tmpl := select_template MODEL_NAME in
  raw ← lift (py_getitem job_input "prompt");
  p ← lift (template tmpl raw);
  sampling_params ← lift (resolve_sampling_params job_input);
  _ ← print (PrintValue job_input);
  _ ← print (PrintSampling sampling_params);
  request_id ← draw_uuid;
  results_generator ← generate p sampling_params request_id;
  mret (job_input, results_generator).

(** What a handler gives to the platform: a fresh dict
    [{key: texts, "runpod_internal": {"metrics": <the metrics dict>}}]
    whose innermost value is a reference into the store. *)
Record response : Type := {
  resp_key : string;
  resp_texts : list string;
  resp_metrics : ref;
}.

Definition input_tokens_of (ro : RequestOutput) : pyval :=
  PList (replicate (length (outputs ro)) (PInt (Z.of_nat (length (prompt_token_ids ro))))).

Definition output_tokens_of (ro : RequestOutput) : pyval :=
  PList (map (fun output => PInt (Z.of_nat (length (token_ids output)))) (outputs ro)).

(** Lines 155-171: one turn of the streaming loop. The local [prompt]
    assigned on line 155 is not read again. *)
Definition stream_turn (job_input : pyval) (request_output : RequestOutput)
  : M response :=
  let text_outputs := map text (outputs request_output) in
  metrics ← prepare_metrics;
  _ ← setitem metrics "job_input" job_input;
  _ ← setitem metrics "input_tokens" (input_tokens_of request_output);
  _ ← setitem metrics "output_tokens" (output_tokens_of request_output);
  mret {| resp_key := "text"; resp_texts := text_outputs; resp_metrics := metrics |}.

(** A yielded object together with the store at the moment of the
    yield, which is what the consumer can read when it receives it. *)
Record emission : Type := {
  em_value : response;
  em_store : world;
}.

(** Lines 154-172: everything yielded, then how the generator ends. *)
Fixpoint stream_loop (job_input : pyval) (g : agen) (w : world)
  : list emission * (result unit * world) :=
  match g with
  | StopAsyncIteration => ([], (Ok tt, w))
  | Throw e => ([], (Raise e, w))
  | Yield request_output rest =>
      match stream_turn job_input request_output w with
      | (Ok ret, w1) =>
          let '(ems, fin) := stream_loop job_input rest w1 in
          ({| em_value := ret; em_store := w1 |} :: ems, fin)
      | (Raise e, w1) => ([], (Raise e, w1))
      end
  end.

(** *** handler_streaming (lines 114-172) *)
Definition handler_streaming (job : pyval) (w : world)
  : list emission * (result unit * world) :=
  match issue_request job w with
  | (Ok (job_input, results_generator), w1) =>
      stream_loop job_input results_generator w1
  | (Raise e, w1) => ([], (Raise e, w1))
  end.

(** Lines 215-217: drain the generator, keeping the last state. *)
Fixpoint drain (final_output : option RequestOutput) (g : agen)
  : result (option RequestOutput) :=
  match g with
  | StopAsyncIteration => Ok final_output
  | Throw e => Raise e
  | Yield request_output rest => drain (Some request_output) rest
  end.

(** *** handler (lines 175-235)

    Line 219 reads [final_output.prompt]: with [None] kept, this is where
    the handler raises. *)
Definition handler (job : pyval) : M response :=
  '(job_input, results_generator) ← issue_request job;
  final_output ← lift (drain None results_generator);
  match final_output with
  | None => raise AttributeError
  | Some final_output =>
      let text_outputs := map text (outputs final_output) in
      metrics ← prepare_metrics;
      _ ← setitem metrics "job_input" job_input;
      _ ← setitem metrics "input_tokens" (input_tokens_of final_output);
      _ ← setitem metrics "output_tokens" (output_tokens_of final_output);
      mret {| resp_key := "outputs"; resp_texts := text_outputs;
              resp_metrics := metrics |}
  end.

(** The JSON a consumer gets when it reads a response in store [w]. *)
Definition render (w : world) (r : response) : pyval :=
  PDict (<[resp_key r := PList (PStr <$> resp_texts r)]>
         (<["runpod_internal" :=
              PDict {[ "metrics" := PDict (deref w (resp_metrics r)) ]}]> ∅)).

(** The store after a request has gone out. *)
Definition requested (job job_input p : pyval) (sp : sampling_config)
                     (w : world) : world :=
  {| waiting := waiting w; swapped := swapped w; metrics := metrics w;
     requests := requests w ++ [{| req_prompt := p; req_sampling_params := sp;
                                   req_id := random_uuid (uuids_drawn w) |}];
     uuids_drawn := S (uuids_drawn w);
     stdout := ((stdout w ++ [PrintJobReceived job]) ++ [PrintValue job_input])
                 ++ [PrintSampling sp] |}.

(** The wrapper text of the template chosen for [name]. *)
Definition chosen {A} (name : string) (llama other : A) : A :=
  match select_template name with
  | LLAMA_TEMPLATE => llama
  | DEFAULT_TEMPLATE => other
  end.

(** Two jobs fare alike in store [w]: both handlers end the same way,
    hand out the same response objects and send the same requests, and
    the metrics dict ends up the same but for the job input echoed in it. *)
Definition same_outcome (job job' : pyval) (w : world) : Prop :=
  fst (handler job w) = fst (handler job' w) /\
  requests (snd (handler job w)) = requests (snd (handler job' w)) /\
  delete "job_input" (metrics (snd (handler job w)))
    = delete "job_input" (metrics (snd (handler job' w))) /\
  map em_value (fst (handler_streaming job w))
    = map em_value (fst (handler_streaming job' w)) /\
  fst (snd (handler_streaming job w)) = fst (snd (handler_streaming job' w)) /\
  requests (snd (snd (handler_streaming job w)))
    = requests (snd (snd (handler_streaming job' w))) /\
  delete "job_input" (metrics (snd (snd (handler_streaming job w))))
    = delete "job_input" (metrics (snd (snd (handler_streaming job' w)))).

End Handlers.

(** ** Module start-up (lines 14-44)

    Line 32 builds the engine's model path from the second component of
    [MODEL_NAME] split at ["/"]. *)

(** [s.split(sep)] for a one-character separator. *)
Fixpoint split_on (sep : ascii) (cs : list ascii) : list (list ascii) :=
  match cs with
  | [] => [[]]
  | c :: cs' =>
      if Ascii.eqb c sep then [] :: split_on sep cs'
      else match split_on sep cs' with
           | seg :: segs => (c :: seg) :: segs
           | [] => [[c]]
           end
  end.

Definition engine_model (model_base_path model_name : string) : result string :=
  match split_on "/" (list_ascii_of_string model_name) with
  | _ :: second :: _ => Ok (model_base_path +:+ string_of_list_ascii second)
  | _ => Raise IndexError
  end.

(** ** The templates, as the specification describes them *)

(** Modelled from the spec: [templates.py], which defines [LLAMA_TEMPLATE]
    and [DEFAULT_TEMPLATE], is not among the sources. Section 4.1 gives
    their contract: the input is a raw prompt string, the output is a
    string embedding that prompt into the template's fixed wrapper text.
    [embeds_prompt t pre suf] says that [t] meets it with the wrapper
    [pre ... suf]. *)
Definition embeds_prompt (t : pyval -> result pyval) (pre suf : string) : Prop :=
  forall s, t (PStr s) = Ok (PStr (pre +:+ s +:+ suf)).

(** Modelled from the spec: a template with wrapper [pre ... suf]. The
    specification is silent on prompts that are not strings; this one
    rejects them. *)
Definition wrapper_template (pre suf : string) (raw : pyval) : result pyval :=
  match raw with
  | PStr s => Ok (PStr (pre +:+ s +:+ suf))
  | _ => Raise TypeError
  end.

(** ** What the platform reads *)

(** The metrics dict after a handler has attached its three keys for the
    state [ro] to the dict [m]. *)
Definition attach (job_input : pyval) (ro : RequestOutput)
                  (m : gmap string pyval) : gmap string pyval :=
  <["output_tokens" := output_tokens_of ro]>
  (<["input_tokens" := input_tokens_of ro]>
  (<["job_input" := job_input]> m)).

(** The response for the state [ro] under [key], read while the metrics
    dict holds that state's counts on top of [m]. *)
Definition payload (key : string) (job_input : pyval) (m : gmap string pyval)
                   (ro : RequestOutput) : pyval :=
  PDict (<[key := PList (PStr <$> map text (outputs ro))]>
         (<["runpod_internal" :=
              PDict {[ "metrics" := PDict (attach job_input ro m) ]}]> ∅)).

(** The states a generator yields, and how it ends. *)
Fixpoint agen_states (g : agen) : list RequestOutput :=
  match g with
  | Yield ro rest => ro :: agen_states rest
  | StopAsyncIteration | Throw _ => []
  end.

Fixpoint agen_end (g : agen) : result unit :=
  match g with
  | Yield _ rest => agen_end rest
  | StopAsyncIteration => Ok tt
  | Throw e => Raise e
  end.

(** The store once [ps] have been printed. *)
Definition printing (ps : list printed) (w : world) : world :=
  {| waiting := waiting w; swapped := swapped w; metrics := metrics w;
     requests := requests w; uuids_drawn := uuids_drawn w;
     stdout := stdout w ++ ps |}.

(** The store once the handler's metrics dict has become [m]. *)
Definition with_metrics (m : gmap string pyval) (w : world) : world :=
  {| waiting := waiting w; swapped := swapped w; metrics := m;
     requests := requests w; uuids_drawn := uuids_drawn w;
     stdout := stdout w |}.

(** What a consumer reads when it keeps the yielded objects and reads
    them in a later store [w]. *)
Definition read_later (w : world) (ems : list emission) : list pyval :=
  map (fun em => render w (em_value em)) ems.

(** What a consumer has read once the stream is over, when it reads each
    response as it arrives. *)
Definition read_on_arrival (ems : list emission) : list pyval :=
  map (fun em => render (em_store em) (em_value em)) ems.

(** ** The rest of start-up (lines 14-41) *)

(** [os.environ.get(name, dflt)], the environment given as a map. *)
Definition environ_get (env : gmap string string) (name : string) (dflt : pyval)
  : pyval :=
  match env !! name with
  | Some s => PStr s
  | None => dflt
  end.

(** Lines 24-28: the shard count and what the fallback prints. *)
Definition num_gpu_shard (env : gmap string string) : result pyval * list printed :=
  match py_int (environ_get env "NUM_GPU_SHARD" (PInt 1)) with
  | Ok v => (Ok v, [])
  | Raise ValueError =>
      (Ok (PInt 1),
       [PrintText "Error: NUM_GPU_SHARD should be an integer. Using default value of 1."])
  | Raise e => (Raise e, [])
  end.

(** The arguments of [AsyncEngineArgs] that depend on the environment;
    the others are constants. *)
Record engine_args : Type := {
  ea_model : string;
  ea_tokenizer : pyval;
  ea_tensor_parallel_size : pyval;
}.

(** Lines 14-41, up to the engine arguments: the result, and what has
    been printed on the way. [MODEL_NAME.split] on line 32 needs a string:
    on [None] it raises [AttributeError]. *)
Definition startup (env : gmap string string) : result engine_args * list printed :=
  let model_name := environ_get env "MODEL_NAME" PNone in
  let model_base_path := default "/runpod-volume/" (env !! "MODEL_BASE_PATH") in
  let tokenizer := environ_get env "TOKENIZER" PNone in
  let out1 := if py_truthy model_name then []
              else [PrintText "Error: The model has not been provided."] in
  match num_gpu_shard env with
  | (Raise e, out2) => (Raise e, out1 ++ out2)
  | (Ok shards, out2) =>
      (match model_name with
       | PStr name =>
           model ← engine_model model_base_path name;
           mret {| ea_model := model; ea_tokenizer := tokenizer;
                   ea_tensor_parallel_size := shards |}
       | _ => Raise AttributeError
       end, out1 ++ out2)
  end.

(** The string has no ["/"] in it. *)
Definition no_slash (s : string) : Prop :=
  Forall (fun c => c <> "/"%char) (list_ascii_of_string s).

(** ** The numeric fields of the configuration

    Key, conversion and default of the nine fields that lines 82-96 send
    through [validate_int] or [validate_float]. *)
Definition numeric_fields : list (string * (pyval -> result pyval) * pyval) :=
  [("n", py_int, PInt 1);
   ("best_of", py_int, PNone);
   ("presence_penalty", py_float, float_0);
   ("frequency_penalty", py_float, float_0);
   ("temperature", py_float, float_1);
   ("top_p", py_float, float_1);
   ("top_k", py_int, PInt (-1));
   ("max_tokens", py_int, PInt 256);
   ("logprobs", py_float, PNone)].

(** The response for the state [ro] as a consumer reads it once the
    metrics dict holds the counts of the state [final] on top of [m]. *)
Definition late_payload (key : string) (job_input : pyval) (m : gmap string pyval)
                        (final ro : RequestOutput) : pyval :=
  PDict (<[key := PList (PStr <$> map text (outputs ro))]>
         (<["runpod_internal" :=
              PDict {[ "metrics" := PDict (attach job_input final m) ]}]> ∅)).

(** ** A deployment to run the handlers on *)

Module Sample.

Definition completion (t : string) (ids : list Z) : CompletionOutput :=
  {| text := t; token_ids := ids |}.

Definition state1 : RequestOutput :=
  {| prompt := "Hi"; prompt_token_ids := [17; 4];
     outputs := [completion "He" [9]] |}.

Definition state2 : RequestOutput :=
  {| prompt := "Hi"; prompt_token_ids := [17; 4];
     outputs := [completion "Hello" [9; 12]] |}.

Definition state3 : RequestOutput :=
  {| prompt := "Hi"; prompt_token_ids := [17; 4];
     outputs := [completion "Hello there" [9; 12; 30]; completion "Hey" [8]] |}.

Definition states : list RequestOutput := [state1; state2; state3].

(** An engine that answers every request with [states], a constructor
    that accepts every argument, and templates that wrap. *)
Definition deployment (model_name : string) (answer : list RequestOutput)
  : Collaborators :=
  {| MODEL_NAME := model_name;
     template := fun t =>
       match t with
       | LLAMA_TEMPLATE => wrapper_template "[INST] " " [/INST]"
       | DEFAULT_TEMPLATE => wrapper_template "" ""
       end;
     sampling_params_init := fun _ => None;
     llm_generate := fun _ _ _ => agen_of_list answer;
     random_uuid := fun k => "request-" +:+ pretty k |}.

Definition collaborators : Collaborators :=
  deployment "meta-llama/Llama-2-7b-chat-hf" states.

Definition idle : world :=
  {| waiting := []; swapped := [];
     metrics := {[ "avg_generation_throughput" := PFloat (Float64.zero false) ]};
     requests := []; uuids_drawn := 0; stdout := [] |}.

Definition job_input : gmap string pyval := {[ "prompt" := PStr "Hi" ]}.
Definition job : pyval := PDict {[ "input" := PDict job_input ]}.

Definition job_without_prompt : pyval :=
  PDict {[ "input" := PDict {[ "sampling_params" := PDict {[ "n" := PInt 2 ]} ]} ]}.

Definition job_input_empty_params : gmap string pyval :=
  {[ "prompt" := PStr "Hi"; "sampling_params" := PDict ∅ ]}.

Definition job_empty_params : gmap string pyval :=
  {[ "input" := PDict job_input_empty_params ]}.

(** The same deployment with an engine that yields nothing. *)
Definition silent : Collaborators :=
  deployment "meta-llama/Llama-2-7b-chat-hf" [].

(** A deployment whose identifier is the bare llama name. *)
Definition bare_llama : Collaborators :=
  deployment "Llama-2-7B-chat-hf" states.

(** The same deployment with an engine that fails after one state. *)
Definition failing : Collaborators :=
  {| MODEL_NAME := "meta-llama/Llama-2-7b-chat-hf";
     template := fun _ => wrapper_template "" "";
     sampling_params_init := fun _ => None;
     llm_generate := fun _ _ _ => Yield state1 (Throw (EngineError "engine stopped"));
     random_uuid := fun k => "request-" +:+ pretty k |}.

Definition job_input_null_params : gmap string pyval :=
  {[ "prompt" := PStr "Hi"; "sampling_params" := PNone ]}.

Definition job_null_params : gmap string pyval :=
  {[ "input" := PDict job_input_null_params ]}.

Definition job_input_list_params : gmap string pyval :=
  {[ "prompt" := PStr "Hi"; "sampling_params" := PList [PStr "n"] ]}.

Definition job_list_params : pyval :=
  PDict {[ "input" := PDict job_input_list_params ]}.

Definition job_without_input : pyval := PDict {[ "id" := PStr "job-1" ]}.

(** Values of the right type and out of any sensible range. *)
Definition unchecked_params : gmap string pyval :=
  {[ "n" := PInt 0; "max_tokens" := PInt (-3);
     "temperature" := PFloat Float64.nan; "top_p" := PFloat (Float64.of_Z 7) ]}.

Definition unchecked_config : gmap string pyval :=
  config_of (PInt 0) PNone float_0 float_0 (PFloat Float64.nan)
            (PFloat (Float64.of_Z 7)) (PInt (-1)) (PBool false) PNone
            (PBool false) (PInt (-3)) PNone.

(** A job whose sampling parameters carry a key the handler does not
    know. *)
Definition job_input_with_params : gmap string pyval :=
  {[ "prompt" := PStr "Hi";
     "sampling_params" := PDict (<["seed" := PInt 7]> sample_params) ]}.

Definition job_with_params : pyval :=
  PDict {[ "input" := PDict job_input_with_params ]}.

Definition environment : gmap string string :=
  {[ "MODEL_NAME" := "meta-llama/Llama-2-7b-chat-hf"; "NUM_GPU_SHARD" := "two" ]}.

(** The store once [job] has been sent from [idle]. *)
Definition sent : world :=
  @requested collaborators job (PDict job_input) (PStr "Hi") (SamplingParams ∅) idle.

End Sample.

(** * Properties *)

(** Closed equations are settled by evaluating both sides. *)
Ltac by_evaluation :=
  match goal with
  | |- _ = ?rhs => vm_cast_no_check (eq_refl rhs)
  end.

(** ** Validation *)

Section Validation.

Implicit Types (d r : gmap string pyval) (v x dflt : pyval).

Lemma py_int_raises v e :
  py_int v = Raise e -> e = TypeError \/ e = ValueError \/ e = OverflowError.
Proof.
  destruct v as [| | |f|s| |]; simpl; try (intros [= <-]; auto; fail).
  - destruct f; intros [= <-]; auto.
  - destruct (Lexer.parse_int s); intros [= <-]; auto.
Qed.

Lemma py_float_raises v e :
  py_float v = Raise e -> e = TypeError \/ e = ValueError \/ e = OverflowError.
Proof.
  destruct v as [| |z| |s| |]; simpl; try (intros [= <-]; auto; fail).
  - destruct (Float64.of_Z z); intros [= <-]; auto.
  - destruct (Lexer.parse_float s); intros [= <-]; auto.
Qed.

(** A validated integer field is the coerced value or the default, and
    the only exception that escapes is [OverflowError]. *)
Lemma validate_int_cases v dflt :
  (validate_int v dflt = Ok dflt /\ (py_int v = Raise TypeError \/ py_int v = Raise ValueError))
  \/ (exists x, validate_int v dflt = Ok x /\ py_int v = Ok x)
  \/ (validate_int v dflt = Raise OverflowError /\ py_int v = Raise OverflowError).
Proof.
  unfold validate_int. destruct (py_int v) as [x|e] eqn:E.
  - right; left; eauto.
  - destruct (py_int_raises _ _ E) as [-> | [-> | ->]]; auto.
Qed.

Lemma validate_float_cases v dflt :
  (validate_float v dflt = Ok dflt /\ (py_float v = Raise TypeError \/ py_float v = Raise ValueError))
  \/ (exists x, validate_float v dflt = Ok x /\ py_float v = Ok x)
  \/ (validate_float v dflt = Raise OverflowError /\ py_float v = Raise OverflowError).
Proof.
  unfold validate_float. destruct (py_float v) as [x|e] eqn:E.
  - right; left; eauto.
  - destruct (py_float_raises _ _ E) as [-> | [-> | ->]]; auto.
Qed.

Lemma validate_int_raises v dflt e :
  validate_int v dflt = Raise e -> e = OverflowError.
Proof.
  destruct (validate_int_cases v dflt) as [[-> _] | [[x [-> _]] | [-> _]]]; congruence.
Qed.

Lemma validate_float_raises v dflt e :
  validate_float v dflt = Raise e -> e = OverflowError.
Proof.
  destruct (validate_float_cases v dflt) as [[-> _] | [[x [-> _]] | [-> _]]]; congruence.
Qed.

Lemma validate_bool_spec v :
  validate_bool v (PBool false) = PBool true <-> v = PBool true.
Proof.
  unfold validate_bool. destruct v; simpl; split; congruence.
Qed.

Lemma validate_bool_is_bool v :
  exists b, validate_bool v (PBool false) = PBool b.
Proof. unfold validate_bool. destruct v; simpl; eauto. Qed.

Lemma get_true d key : get d key = PBool true <-> d !! key = Some (PBool true).
Proof.
  unfold get. destruct (d !! key) as [v|]; simpl; split; congruence.
Qed.

(** What a normal return of [validate_sampling_params] on a dict means,
    field by field. *)
Lemma validate_sampling_params_inv d r :
  validate_sampling_params (PDict d) = Ok r ->
  exists n best_of presence_penalty frequency_penalty temperature top_p top_k
         max_tokens logprobs,
    validate_int (get d "n") (PInt 1) = Ok n /\
    validate_int (get d "best_of") PNone = Ok best_of /\
    validate_float (get d "presence_penalty") float_0 = Ok presence_penalty /\
    validate_float (get d "frequency_penalty") float_0 = Ok frequency_penalty /\
    validate_float (get d "temperature") float_1 = Ok temperature /\
    validate_float (get d "top_p") float_1 = Ok top_p /\
    validate_int (get d "top_k") (PInt (-1)) = Ok top_k /\
    validate_int (get d "max_tokens") (PInt 256) = Ok max_tokens /\
    validate_float (get d "logprobs") PNone = Ok logprobs /\
    r = config_of n best_of presence_penalty frequency_penalty temperature
          top_p top_k
          (validate_bool (get d "use_beam_search") (PBool false))
          (get d "stop")
          (validate_bool (get d "ignore_eos") (PBool false))
          max_tokens logprobs.
Proof.
  unfold validate_sampling_params, py_get, get. cbn [mbind result_bind].
  intros Hr.
  repeat match type of Hr with
         | context [validate_int ?a ?b] =>
             destruct (validate_int a b) eqn:?; [cbn [mbind result_bind] in Hr | discriminate Hr]
         | context [validate_float ?a ?b] =>
             destruct (validate_float a b) eqn:?; [cbn [mbind result_bind] in Hr | discriminate Hr]
         end.
  injection Hr as <-. do 9 eexists. repeat (split; [reflexivity|]). reflexivity.
Qed.

End Validation.

Section ValidationClaims.

Implicit Types (d r : gmap string pyval) (v x dflt : pyval).

Lemma dom_config_of n bo pp fp t tp tk ubs st ie mt lp :
  dom (config_of n bo pp fp t tp tk ubs st ie mt lp) = config_fields.
Proof.
  unfold config_of, config_fields. rewrite !dom_insert_L, dom_empty_L.
  simpl. set_solver.
Qed.

(** A normal return carries exactly the twelve fields. *)
Lemma validate_sampling_params_complete d r :
  validate_sampling_params (PDict d) = Ok r -> dom r = config_fields.
Proof.
  intros Hr. apply validate_sampling_params_inv in Hr.
  destruct Hr as (n & bo & pp & fp & t & tp & tk & mt & lp & Hr).
  destruct Hr as (_ & _ & _ & _ & _ & _ & _ & _ & _ & ->).
  apply dom_config_of.
Qed.

(** Whatever a dict holds, the only exception that leaves the function
    is the one its [except] clauses do not name. *)
Lemma validate_sampling_params_raises d e :
  validate_sampling_params (PDict d) = Raise e -> e = OverflowError.
Proof.
  unfold validate_sampling_params, py_get. cbn [mbind result_bind].
  intros Hr.
  repeat match type of Hr with
         | context [validate_int ?a ?b] =>
             let E := fresh "E" in
             destruct (validate_int a b) eqn:E;
             [cbn [mbind result_bind] in Hr
             | injection Hr as <-; exact (validate_int_raises _ _ _ E)]
         | context [validate_float ?a ?b] =>
             let E := fresh "E" in
             destruct (validate_float a b) eqn:E;
             [cbn [mbind result_bind] in Hr
             | injection Hr as <-; exact (validate_float_raises _ _ _ E)]
         end.
  discriminate Hr.
Qed.

Lemma validate_int_fits v dflt :
  py_int v <> Raise OverflowError -> exists x, validate_int v dflt = Ok x.
Proof.
  intros Hfit.
  destruct (validate_int_cases v dflt) as [[-> _] | [[x [-> _]] | [_ E]]]; eauto.
  contradiction.
Qed.

Lemma validate_float_fits v dflt :
  py_float v <> Raise OverflowError -> exists x, validate_float v dflt = Ok x.
Proof.
  intros Hfit.
  destruct (validate_float_cases v dflt) as [[-> _] | [[x [-> _]] | [_ E]]]; eauto.
  contradiction.
Qed.

(** Away from overflowing conversions the function does return, with a
    complete configuration. *)
Lemma validate_sampling_params_returns d :
  conversions_fit d ->
  exists r, validate_sampling_params (PDict d) = Ok r /\ dom r = config_fields.
Proof.
  intros [Hi Hf].
  repeat match goal with
         | H : Forall _ (_ :: _) |- _ =>
             apply Forall_cons_1 in H; cbv beta in H; unfold get in H;
             destruct H as [? H]
         end.
  destruct (validate_sampling_params (PDict d)) as [r|e] eqn:E.
  - exists r. split; [reflexivity|]. eapply validate_sampling_params_complete, E.
  - exfalso. revert E.
    unfold validate_sampling_params, py_get. cbn [mbind result_bind].
    repeat match goal with
           | H : py_int ?v <> _ |- context [validate_int ?v ?b] =>
               let x := fresh "x" in let E := fresh "E" in
               destruct (validate_int_fits v b H) as [x E]; rewrite E; clear H;
               cbn [mbind result_bind]
           | H : py_float ?v <> _ |- context [validate_float ?v ?b] =>
               let x := fresh "x" in let E := fresh "E" in
               destruct (validate_float_fits v b H) as [x E]; rewrite E; clear H;
               cbn [mbind result_bind]
           end.
    discriminate.
Qed.

(** C1. The function is meant never to raise; on the mapping
    [{"n": inf}] (JSON [1e999]) and on [{"temperature": 10**400}] the
    conversion raises [OverflowError], which neither [except] clause
    catches, and the call raises instead of returning a configuration. *)
Theorem validate_sampling_params_overflow_escapes :
  validate_sampling_params (PDict {[ "n" := PFloat (Float64.inf false) ]})
    = Raise OverflowError /\
  validate_sampling_params (PDict {[ "temperature" := PInt (10 ^ 400) ]})
    = Raise OverflowError.
Proof. split; vm_compute; reflexivity. Qed.



Lemma validate_sample_params :
  validate_sampling_params (PDict sample_params) = Ok sample_config.
Proof. by_evaluation. Qed.


(** C7. In a returned configuration [use_beam_search] is [True] exactly
    when the input value is the boolean [True], and it is a boolean in
    every case; the same holds of [ignore_eos]. *)
Theorem bool_fields_literal_only d r :
  validate_sampling_params (PDict d) = Ok r ->
  (r !! "use_beam_search" = Some (PBool true)
     <-> d !! "use_beam_search" = Some (PBool true)) /\
  (r !! "ignore_eos" = Some (PBool true)
     <-> d !! "ignore_eos" = Some (PBool true)) /\
  (exists b, r !! "use_beam_search" = Some (PBool b)) /\
  (exists b, r !! "ignore_eos" = Some (PBool b)).
Proof.
  intros Hr. apply validate_sampling_params_inv in Hr.
  destruct Hr as (n & bo & pp & fp & t & tp & tk & mt & lp & Hr).
  destruct Hr as (_ & _ & _ & _ & _ & _ & _ & _ & _ & ->).
  assert (Hu : config_of n bo pp fp t tp tk
                 (validate_bool (get d "use_beam_search") (PBool false))
                 (get d "stop")
                 (validate_bool (get d "ignore_eos") (PBool false)) mt lp
               !! "use_beam_search"
               = Some (validate_bool (get d "use_beam_search") (PBool false)))
    by reflexivity.
  assert (Hi : config_of n bo pp fp t tp tk
                 (validate_bool (get d "use_beam_search") (PBool false))
                 (get d "stop")
                 (validate_bool (get d "ignore_eos") (PBool false)) mt lp
               !! "ignore_eos"
               = Some (validate_bool (get d "ignore_eos") (PBool false)))
    by reflexivity.
  rewrite Hu, Hi. clear Hu Hi.
  repeat split.
  - intros [= Hb]. apply get_true, validate_bool_spec, Hb.
  - intros Hd. f_equal. apply validate_bool_spec, get_true, Hd.
  - intros [= Hb]. apply get_true, validate_bool_spec, Hb.
  - intros Hd. f_equal. apply validate_bool_spec, get_true, Hd.
  - destruct (validate_bool_is_bool (get d "use_beam_search")) as [b ->]. eauto.
  - destruct (validate_bool_is_bool (get d "ignore_eos")) as [b ->]. eauto.
Qed.

Lemma bool_fields_literal_only_witness :
  validate_sampling_params (PDict sample_params) = Ok sample_config /\
  (sample_config !! "use_beam_search" = Some (PBool true)
     <-> sample_params !! "use_beam_search" = Some (PBool true)) /\
  (sample_config !! "ignore_eos" = Some (PBool true)
     <-> sample_params !! "ignore_eos" = Some (PBool true)).
Proof.
  split; [exact validate_sample_params|].
  destruct (bool_fields_literal_only
              sample_params sample_config validate_sample_params)
    as (Hu & Hi & _).
  exact (conj Hu Hi).
Defined.

(** The string ["true"], the integer [1] and a missing key all give
    [False]. *)
Example use_beam_search_other_types :
  Forall (fun v => validate_bool v (PBool false) = PBool false)
         [PStr "true"; PInt 1; PNone].
Proof. repeat constructor. Qed.

End ValidationClaims.

(** ** The autoscaling predicate *)

(** C4. The controller answers [True] exactly when the two queue lengths
    add up to more than 30: [True] at 31, [False] at 30. It reads nothing
    else and leaves the engine as it found it, one printed line apart. *)
Theorem concurrency_controller_threshold (w : world) :
  exists b,
    concurrency_controller w
      = (Ok b, printing [PrintText "vLLM has {total_pending_sequences} pending sequences in its internal queue."] w) /\
    (b = true <-> (length (waiting w) + length (swapped w) > 30)%nat) /\
    ((length (waiting w) + length (swapped w) = 31)%nat -> b = true) /\
    ((length (waiting w) + length (swapped w) = 30)%nat -> b = false).
Proof.
  exists (Nat.ltb 30 (length (waiting w) + length (swapped w))).
  split; [reflexivity|]. split; [|split].
  - rewrite Nat.ltb_lt. lia.
  - intros ->. reflexivity.
  - intros ->. reflexivity.
Qed.

(** Two engines with the same queue lengths get the same answer. *)
Lemma concurrency_controller_reads_lengths (w w' : world) :
  length (waiting w) = length (waiting w') ->
  length (swapped w) = length (swapped w') ->
  fst (concurrency_controller w) = fst (concurrency_controller w').
Proof.
  intros Hw Hs. unfold concurrency_controller. simpl. rewrite Hw, Hs. reflexivity.
Qed.

(** ** The handlers *)

Section HandlerFacts.

Context `{Collaborators}.

Implicit Types (w : world) (job job_input raw : pyval) (g : agen)
               (d j m : gmap string pyval).

(** The shared opening of the handlers, step by step: each step that
    raises ends it, with nothing sent to the engine. *)
Lemma issue_request_run job w :
  issue_request job w =
    match py_getitem job "input" with
    | Raise e => (Raise e, printing [PrintJobReceived job] w)
    | Ok job_input =>
        match py_getitem job_input "prompt" with
        | Raise e => (Raise e, printing [PrintJobReceived job] w)
        | Ok raw =>
            match template (select_template MODEL_NAME) raw with
            | Raise e => (Raise e, printing [PrintJobReceived job] w)
            | Ok p =>
                match resolve_sampling_params job_input with
                | Raise e => (Raise e, printing [PrintJobReceived job] w)
                | Ok sp =>
                    (Ok (job_input, llm_generate p sp (random_uuid (uuids_drawn w))),
                     requested job job_input p sp w)
                end
            end
        end
    end.
Proof.
  unfold issue_request, mbind, M_bind, lift, print, printing. simpl.
  destruct (py_getitem job "input") as [job_input|e]; [|reflexivity].
  destruct (py_getitem job_input "prompt") as [raw|e]; [|reflexivity].
  destruct (template (select_template MODEL_NAME) raw) as [p|e]; [|reflexivity].
  destruct (resolve_sampling_params job_input) as [sp|e]; reflexivity.
Qed.

Lemma issue_request_inv job w job_input g w1 :
  issue_request job w = (Ok (job_input, g), w1) ->
  exists raw p sp,
    py_getitem job "input" = Ok job_input /\
    py_getitem job_input "prompt" = Ok raw /\
    template (select_template MODEL_NAME) raw = Ok p /\
    resolve_sampling_params job_input = Ok sp /\
    g = llm_generate p sp (random_uuid (uuids_drawn w)) /\
    w1 = requested job job_input p sp w.
Proof.
  rewrite issue_request_run.
  destruct (py_getitem job "input") as [ji|e]; [|discriminate].
  destruct (py_getitem ji "prompt") as [raw|e] eqn:Hraw; [|discriminate].
  destruct (template (select_template MODEL_NAME) raw) as [p|e] eqn:Hp; [|discriminate].
  destruct (resolve_sampling_params ji) as [sp|e] eqn:Hsp; [|discriminate].
  intros [= <- <- <-]. exists raw, p, sp. rewrite Hraw. auto 10.
Qed.

Lemma drain_last init fo acc :
  drain acc (agen_of_list (init ++ [fo])) = Ok (Some fo).
Proof.
  revert acc. induction init as [|ro init IH]; intros acc; simpl; [reflexivity|].
  apply IH.
Qed.

(** [handler] past its opening: drain, then answer from the last state. *)
Lemma handler_after_request job w job_input g w1 :
  issue_request job w = (Ok (job_input, g), w1) ->
  handler job w =
    match drain None g with
    | Ok (Some fo) =>
        (Ok {| resp_key := "outputs"; resp_texts := map text (outputs fo);
               resp_metrics := engine_metrics |},
         with_metrics (attach job_input fo (metrics w1)) w1)
    | Ok None => (Raise AttributeError, w1)
    | Raise e => (Raise e, w1)
    end.
Proof.
  intros Hreq. unfold handler. unfold mbind at 1. unfold M_bind at 1.
  rewrite Hreq. unfold lift, mbind, M_bind.
  destruct (drain None g) as [[fo|]|e]; reflexivity.
Qed.

Lemma handler_request_fails job w e w1 :
  issue_request job w = (Raise e, w1) ->
  handler job w = (Raise e, w1) /\ handler_streaming job w = ([], (Raise e, w1)).
Proof.
  intros Hreq. unfold handler, handler_streaming.
  unfold mbind at 1. unfold M_bind at 1. rewrite Hreq. auto.
Qed.

Lemma stream_turn_run job_input ro w :
  stream_turn job_input ro w =
    (Ok {| resp_key := "text"; resp_texts := map text (outputs ro);
           resp_metrics := engine_metrics |},
     with_metrics (attach job_input ro (metrics w)) w).
Proof. reflexivity. Qed.

(** The three keys are overwritten on every turn: what an earlier turn
    attached is gone after the next one. *)
Lemma attach_absorb job_input job_input' ro ro' m :
  attach job_input ro (attach job_input' ro' m) = attach job_input ro m.
Proof.
  unfold attach. apply map_eq. intros k.
  rewrite !lookup_insert. repeat case_decide; congruence.
Qed.

Lemma attach_input_tokens job_input ro m :
  attach job_input ro m !! "input_tokens" = Some (input_tokens_of ro).
Proof.
  unfold attach. rewrite lookup_insert_ne by discriminate.
  apply lookup_insert_eq.
Qed.

Lemma attach_output_tokens job_input ro m :
  attach job_input ro m !! "output_tokens" = Some (output_tokens_of ro).
Proof. unfold attach. apply lookup_insert_eq. Qed.

Lemma attach_job_input job_input ro m :
  attach job_input ro m !! "job_input" = Some job_input.
Proof.
  unfold attach. rewrite !lookup_insert_ne by discriminate.
  apply lookup_insert_eq.
Qed.

Lemma payload_absorb key job_input job_input' ro ro' m :
  payload key job_input (attach job_input' ro' m) ro = payload key job_input m ro.
Proof. unfold payload. rewrite attach_absorb. reflexivity. Qed.

Lemma stream_loop_read job_input states w :
  read_on_arrival (fst (stream_loop job_input (agen_of_list states) w))
    = map (payload "text" job_input (metrics w)) states.
Proof.
  revert w. induction states as [|ro states IH]; intros w; [reflexivity|].
  cbn [stream_loop agen_of_list agen_states agen_end]. rewrite stream_turn_run.
  destruct (stream_loop job_input (agen_of_list states) _) as [ems fin] eqn:E.
  simpl. f_equal.
  change ems with (fst (ems, fin)). rewrite <- E, IH. simpl.
  apply map_ext. intros ro'. apply payload_absorb.
Qed.

Lemma stream_loop_values job_input g w :
  map em_value (fst (stream_loop job_input g w))
    = map (fun ro => {| resp_key := "text"; resp_texts := map text (outputs ro);
                        resp_metrics := engine_metrics |}) (agen_states g).
Proof.
  revert w. induction g as [|ro rest IH|e]; intros w; [reflexivity| |reflexivity].
  cbn [stream_loop agen_of_list agen_states agen_end]. rewrite stream_turn_run.
  destruct (stream_loop job_input rest _) as [ems fin] eqn:E.
  simpl. f_equal. rewrite <- (IH (with_metrics (attach job_input ro (metrics w)) w)).
  rewrite E. reflexivity.
Qed.

Lemma stream_loop_end job_input g w :
  fst (snd (stream_loop job_input g w)) = agen_end g.
Proof.
  revert w. induction g as [|ro rest IH|e]; intros w; [reflexivity| |reflexivity].
  cbn [stream_loop agen_of_list agen_states agen_end]. rewrite stream_turn_run.
  destruct (stream_loop job_input rest _) as [ems fin] eqn:E.
  simpl. rewrite <- (IH (with_metrics (attach job_input ro (metrics w)) w)).
  rewrite E. reflexivity.
Qed.

Lemma stream_loop_requests job_input g w :
  requests (snd (snd (stream_loop job_input g w))) = requests w.
Proof.
  revert w. induction g as [|ro rest IH|e]; intros w; [reflexivity| |reflexivity].
  cbn [stream_loop agen_of_list agen_states agen_end]. rewrite stream_turn_run.
  destruct (stream_loop job_input rest _) as [ems fin] eqn:E.
  simpl. change fin with (snd (ems, fin)). rewrite <- E, IH. reflexivity.
Qed.

Lemma agen_states_of_list states : agen_states (agen_of_list states) = states.
Proof. induction states as [|ro states IH]; simpl; congruence. Qed.

Lemma agen_end_of_list states : agen_end (agen_of_list states) = Ok tt.
Proof. induction states as [|ro states IH]; simpl; congruence. Qed.

End HandlerFacts.

Section HandlerClaims.

Context `{Collaborators}.

Implicit Types (w : world) (job job_input raw : pyval) (g : agen)
               (d j m : gmap string pyval).

(** C2. When the request goes out and the engine answers with a
    non-empty finite run of states, [handler] returns one response: its
    ["outputs"] are the texts of the last state, and the metrics it
    carries hold [input_tokens] and [output_tokens] lists with one entry
    per completion of that state. *)
Theorem handler_returns_last_state job w job_input init final_output w1 :
  issue_request job w = (Ok (job_input, agen_of_list (init ++ [final_output])), w1) ->
  exists ret w2,
    handler job w = (Ok ret, w2) /\
    resp_key ret = "outputs" /\
    resp_texts ret = map text (outputs final_output) /\
    render w2 ret = payload "outputs" job_input (metrics w) final_output /\
    exists ins outs,
      deref w2 (resp_metrics ret) !! "input_tokens" = Some (PList ins) /\
      deref w2 (resp_metrics ret) !! "output_tokens" = Some (PList outs) /\
      length ins = length (outputs final_output) /\
      length outs = length (outputs final_output).
Proof.
  intros Hreq. rewrite (handler_after_request _ _ _ _ _ Hreq), drain_last.
  apply issue_request_inv in Hreq.
  destruct Hreq as (raw & p & sp & _ & _ & _ & _ & _ & ->).
  eexists _, _. split; [reflexivity|]. split; [reflexivity|].
  split; [reflexivity|]. split; [reflexivity|].
  exists (replicate (length (outputs final_output))
            (PInt (Z.of_nat (length (prompt_token_ids final_output))))),
         (map (fun output => PInt (Z.of_nat (length (token_ids output))))
            (outputs final_output)).
  split; [apply attach_input_tokens|]. split; [apply attach_output_tokens|].
  split; [apply length_replicate | apply length_map].
Qed.

(** C10. When the engine's run of states is empty, [handler] has kept
    [None] and raises on reading its [prompt]: no response is returned. *)
Theorem handler_empty_run_raises job w job_input w1 :
  issue_request job w = (Ok (job_input, agen_of_list []), w1) ->
  handler job w = (Raise AttributeError, w1).
Proof.
  intros Hreq. rewrite (handler_after_request _ _ _ _ _ Hreq). reflexivity.
Qed.


(** C8. A job whose input dict has no ["prompt"] makes both handlers
    raise [KeyError]: nothing is sent to the engine, nothing is yielded
    or returned, and the store only gained the first printed line. *)
Theorem missing_prompt_raises job d w :
  py_getitem job "input" = Ok (PDict d) ->
  d !! "prompt" = None ->
  handler job w = (Raise (KeyError "prompt"), printing [PrintJobReceived job] w) /\
  handler_streaming job w
    = ([], (Raise (KeyError "prompt"), printing [PrintJobReceived job] w)) /\
  requests (printing [PrintJobReceived job] w) = requests w.
Proof.
  intros Hin Hno.
  assert (Hreq : issue_request job w
                 = (Raise (KeyError "prompt"), printing [PrintJobReceived job] w)).
  { rewrite issue_request_run, Hin. simpl. rewrite Hno. reflexivity. }
  destruct (handler_request_fails _ _ _ _ Hreq) as [-> ->]. auto.
Qed.

Lemma truthy_dict d : py_truthy (PDict d) = false <-> d = ∅.
Proof.
  simpl. rewrite negb_false_iff, Nat.eqb_eq. apply map_size_empty_iff.
Qed.

Lemma resolve_absent d :
  d !! "sampling_params" = None ->
  resolve_sampling_params (PDict d) = new_SamplingParams ∅.
Proof.
  intros Hd. unfold resolve_sampling_params. simpl. rewrite Hd. reflexivity.
Qed.

Lemma resolve_dict d sp :
  d !! "sampling_params" = Some (PDict sp) ->
  resolve_sampling_params (PDict d) =
    if decide (sp = ∅) then new_SamplingParams ∅
    else kwargs ← validate_sampling_params (PDict sp); new_SamplingParams kwargs.
Proof.
  intros Hd. unfold resolve_sampling_params. cbn [py_get mbind result_bind].
  rewrite Hd. change (default PNone (Some (PDict sp))) with (PDict sp).
  destruct (py_truthy (PDict sp)) eqn:Ht; case_decide as Hsp; try reflexivity.
  - apply truthy_dict in Hsp. congruence.
  - apply truthy_dict in Ht. contradiction.
Qed.

Lemma delete_job_input_attach job_input job_input' ro m m' :
  delete "job_input" m = delete "job_input" m' ->
  delete "job_input" (attach job_input ro m)
    = delete "job_input" (attach job_input' ro m').
Proof.
  intros Hm. unfold attach.
  do 2 (rewrite (delete_insert_ne _ "job_input") by discriminate).
  rewrite delete_insert_eq, Hm.
  do 2 (rewrite (delete_insert_ne _ "job_input") by discriminate).
  rewrite delete_insert_eq. reflexivity.
Qed.

Lemma stream_loop_metrics job_input job_input' g w w' :
  delete "job_input" (metrics w) = delete "job_input" (metrics w') ->
  delete "job_input" (metrics (snd (snd (stream_loop job_input g w))))
    = delete "job_input" (metrics (snd (snd (stream_loop job_input' g w')))).
Proof.
  revert w w'. induction g as [|ro rest IH|e]; intros w w' Hm; [exact Hm| |exact Hm].
  cbn [stream_loop]. rewrite !stream_turn_run.
  destruct (stream_loop job_input rest _) as [ems fin] eqn:E.
  destruct (stream_loop job_input' rest _) as [ems' fin'] eqn:E'.
  cbn [snd]. change fin with (snd (ems, fin)). change fin' with (snd (ems', fin')).
  rewrite <- E, <- E'. apply IH. cbn [metrics with_metrics].
  apply delete_job_input_attach, Hm.
Qed.

(** Two openings that fail alike, or that obtain the same generator and
    leave stores with the same requests and metrics, lead both handlers to
    the same outcome. *)
Lemma same_outcome_of_requests job job' w job_input job_input' g w1 w1' :
  issue_request job w = (Ok (job_input, g), w1) ->
  issue_request job' w = (Ok (job_input', g), w1') ->
  requests w1 = requests w1' ->
  metrics w1 = metrics w1' ->
  same_outcome job job' w.
Proof.
  intros Hreq Hreq' Hrq Hm. unfold same_outcome.
  rewrite (handler_after_request _ _ _ _ _ Hreq), (handler_after_request _ _ _ _ _ Hreq').
  unfold handler_streaming. rewrite Hreq, Hreq'.
  rewrite !stream_loop_values, !stream_loop_end, !stream_loop_requests.
  repeat split; try (destruct (drain None g) as [[fo|]|e]; simpl; congruence).
  - destruct (drain None g) as [[fo|]|e]; simpl; [|congruence|congruence].
    apply delete_job_input_attach. congruence.
  - apply stream_loop_metrics. congruence.
Qed.

Lemma same_outcome_of_failures job job' w e w1 w1' :
  issue_request job w = (Raise e, w1) ->
  issue_request job' w = (Raise e, w1') ->
  requests w1 = requests w1' ->
  metrics w1 = metrics w1' ->
  same_outcome job job' w.
Proof.
  intros Hreq Hreq' Hrq Hm. unfold same_outcome.
  destruct (handler_request_fails _ _ _ _ Hreq) as [-> ->].
  destruct (handler_request_fails _ _ _ _ Hreq') as [-> ->].
  simpl. rewrite Hrq, Hm. auto 10.
Qed.

(** C9. An empty [sampling_params] dict is falsy, so the handlers take
    the same branch as when the key is missing: the configuration is
    built by [SamplingParams()] without arguments, and the job fares as
    the same job without the key. The validated configuration is built
    only from a non-empty dict. *)
Theorem empty_sampling_params_as_absent j d w :
  j !! "input" = Some (PDict d) ->
  d !! "sampling_params" = Some (PDict ∅) ->
  resolve_sampling_params (PDict d) = new_SamplingParams ∅ /\
  resolve_sampling_params (PDict (delete "sampling_params" d)) = new_SamplingParams ∅ /\
  same_outcome (PDict j)
               (PDict (<["input" := PDict (delete "sampling_params" d)]> j)) w /\
  (forall sp, sp <> ∅ ->
     resolve_sampling_params (PDict (<["sampling_params" := PDict sp]> d))
       = kwargs ← validate_sampling_params (PDict sp); new_SamplingParams kwargs).
Proof.
  intros Hin Hd.
  assert (Hr : resolve_sampling_params (PDict d) = new_SamplingParams ∅).
  { rewrite (resolve_dict _ _ Hd). case_decide; congruence. }
  assert (Hr' : resolve_sampling_params (PDict (delete "sampling_params" d))
                = new_SamplingParams ∅).
  { apply resolve_absent, lookup_delete_eq. }
  split; [exact Hr|]. split; [exact Hr'|]. split.
  - set (job := PDict j).
    set (job' := PDict (<["input" := PDict (delete "sampling_params" d)]> j)).
    assert (Hq := issue_request_run job w).
    assert (Hq' := issue_request_run job' w).
    cbn [py_getitem job job'] in Hq, Hq'.
    rewrite Hin in Hq. rewrite lookup_insert_eq in Hq'.
    unfold py_getitem in Hq, Hq'.
    rewrite lookup_delete_ne in Hq' by discriminate.
    rewrite Hr in Hq. rewrite Hr' in Hq'.
    destruct (d !! "prompt") as [raw|];
      [|eapply same_outcome_of_failures; [exact Hq|exact Hq'|reflexivity|reflexivity]].
    destruct (template (select_template MODEL_NAME) raw) as [p|e];
      [|eapply same_outcome_of_failures; [exact Hq|exact Hq'|reflexivity|reflexivity]].
    destruct (new_SamplingParams ∅) as [sp|e];
      [|eapply same_outcome_of_failures; [exact Hq|exact Hq'|reflexivity|reflexivity]].
    eapply same_outcome_of_requests; [exact Hq|exact Hq'|reflexivity|reflexivity].
  - intros sp Hsp.
    rewrite (resolve_dict _ sp) by apply lookup_insert_eq.
    case_decide; [contradiction|reflexivity].
Qed.

(** Read as a function of the identifier alone, the selection gives
    [llama-2-13b-chat-hf] the template of [llama-2-7b-chat-hf]. *)
Lemma llama_13b_selects_same_template :
  select_template "llama-2-7b-chat-hf" = LLAMA_TEMPLATE /\
  select_template "llama-2-13b-chat-hf" = LLAMA_TEMPLATE /\
  ~ (forall name other,
       Lexer.str_lower name = "llama-2-7b-chat-hf" ->
       Lexer.str_lower other <> "llama-2-7b-chat-hf" ->
       select_template name <> select_template other).
Proof.
  split; [reflexivity|]. split; [reflexivity|].
  intros Hclaim.
  apply (Hclaim "llama-2-7b-chat-hf" "llama-2-13b-chat-hf");
    [reflexivity | discriminate | reflexivity].
Qed.

Lemma select_template_llama name :
  select_template name = LLAMA_TEMPLATE <->
  Lexer.str_lower name = "llama-2-7b-chat-hf" \/
  Lexer.str_lower name = "llama-2-13b-chat-hf".
Proof.
  unfold select_template. rewrite <- !String.eqb_eq, <- orb_true_iff.
  destruct (_ || _); split; congruence.
Qed.

(** The selection as a function of the identifier, and the path of the
    prompt: [LLAMA_TEMPLATE] is chosen exactly for the two identifiers
    [llama-2-7b-chat-hf] and [llama-2-13b-chat-hf], compared in lower
    case, and [DEFAULT_TEMPLATE] for every other one. Whichever is chosen
    receives the job's prompt as it came, and what it returns is the
    prompt sent to the engine: with templates that embed, the wrapper
    text around the raw prompt. *)
Theorem template_chosen_and_applied job w job_input g w1 s lpre lsuf dpre dsuf :
  embeds_prompt (template LLAMA_TEMPLATE) lpre lsuf ->
  embeds_prompt (template DEFAULT_TEMPLATE) dpre dsuf ->
  issue_request job w = (Ok (job_input, g), w1) ->
  py_getitem job_input "prompt" = Ok (PStr s) ->
  (select_template MODEL_NAME = LLAMA_TEMPLATE <->
     Lexer.str_lower MODEL_NAME = "llama-2-7b-chat-hf" \/
     Lexer.str_lower MODEL_NAME = "llama-2-13b-chat-hf") /\
  (select_template MODEL_NAME = DEFAULT_TEMPLATE <->
     Lexer.str_lower MODEL_NAME <> "llama-2-7b-chat-hf" /\
     Lexer.str_lower MODEL_NAME <> "llama-2-13b-chat-hf") /\
  exists sp,
    requests w1 = requests w ++
      [{| req_prompt := PStr (chosen MODEL_NAME lpre dpre +:+ s
                                +:+ chosen MODEL_NAME lsuf dsuf);
          req_sampling_params := sp;
          req_id := random_uuid (uuids_drawn w) |}].
Proof.
  intros Hl Hd Hreq Hs.
  split; [apply select_template_llama|]. split.
  - assert (Hiff := select_template_llama MODEL_NAME).
    destruct (select_template MODEL_NAME); split.
    + discriminate.
    + intros [Ha Hb]. exfalso. destruct Hiff as [Hiff _].
      destruct (Hiff eq_refl); contradiction.
    + intros _. split; intros E; destruct Hiff as [_ Hiff];
        (assert (DEFAULT_TEMPLATE = LLAMA_TEMPLATE) by auto; discriminate).
    + reflexivity.
  - apply issue_request_inv in Hreq.
    destruct Hreq as (raw & p & sp & _ & Hraw & Hp & _ & _ & ->).
    rewrite Hs in Hraw. injection Hraw as <-.
    exists sp. cbn [requests requested]. do 3 f_equal.
    unfold chosen. destruct (select_template MODEL_NAME).
    + rewrite Hl in Hp. congruence.
    + rewrite Hd in Hp. congruence.
Qed.

End HandlerClaims.

(** ** The theorems at work on the sample deployment *)

Lemma sample_request :
  @issue_request Sample.collaborators Sample.job Sample.idle
    = (Ok (PDict Sample.job_input, agen_of_list Sample.states), Sample.sent).
Proof. by_evaluation. Qed.

Lemma sample_request_silent :
  @issue_request Sample.silent Sample.job Sample.idle
    = (Ok (PDict Sample.job_input, agen_of_list []), Sample.sent).
Proof. by_evaluation. Qed.

Lemma handler_returns_last_state_witness :
  @issue_request Sample.collaborators Sample.job Sample.idle
    = (Ok (PDict Sample.job_input,
           agen_of_list ([Sample.state1; Sample.state2] ++ [Sample.state3])),
       Sample.sent) /\
  exists ret w2,
    @handler Sample.collaborators Sample.job Sample.idle = (Ok ret, w2) /\
    resp_texts ret = ["Hello there"; "Hey"]%string.
Proof.
  split; [exact sample_request|].
  destruct (@handler_returns_last_state Sample.collaborators Sample.job Sample.idle
              (PDict Sample.job_input) [Sample.state1; Sample.state2]
              Sample.state3 Sample.sent sample_request)
    as (ret & w2 & Hrun & _ & Htexts & _).
  exists ret, w2. split; [exact Hrun | exact Htexts].
Defined.

Lemma handler_empty_run_raises_witness :
  @issue_request Sample.silent Sample.job Sample.idle
    = (Ok (PDict Sample.job_input, agen_of_list []), Sample.sent) /\
  @handler Sample.silent Sample.job Sample.idle = (Raise AttributeError, Sample.sent).
Proof.
  split; [exact sample_request_silent|].
  exact (@handler_empty_run_raises Sample.silent Sample.job Sample.idle
           (PDict Sample.job_input) Sample.sent sample_request_silent).
Defined.


Lemma missing_prompt_raises_witness :
  py_getitem Sample.job_without_prompt "input"
    = Ok (PDict {[ "sampling_params" := PDict {[ "n" := PInt 2 ]} ]}) /\
  @handler Sample.collaborators Sample.job_without_prompt Sample.idle
    = (Raise (KeyError "prompt"),
       printing [PrintJobReceived Sample.job_without_prompt] Sample.idle) /\
  fst (@handler_streaming Sample.collaborators Sample.job_without_prompt Sample.idle)
    = [].
Proof.
  assert (Hin : py_getitem Sample.job_without_prompt "input"
                = Ok (PDict {[ "sampling_params" := PDict {[ "n" := PInt 2 ]} ]}))
    by reflexivity.
  split; [exact Hin|].
  destruct (@missing_prompt_raises Sample.collaborators Sample.job_without_prompt
              _ Sample.idle Hin eq_refl) as (Hh & Hs & _).
  split; [exact Hh | rewrite Hs; reflexivity].
Defined.

Lemma empty_sampling_params_as_absent_witness :
  Sample.job_empty_params !! "input" = Some (PDict Sample.job_input_empty_params) /\
  Sample.job_input_empty_params !! "sampling_params" = Some (PDict ∅) /\
  @resolve_sampling_params Sample.collaborators (PDict Sample.job_input_empty_params)
    = Ok (SamplingParams ∅) /\
  @same_outcome Sample.collaborators
     (PDict Sample.job_empty_params)
     (PDict (<["input" := PDict (delete "sampling_params" Sample.job_input_empty_params)]>
               Sample.job_empty_params))
     Sample.idle.
Proof.
  assert (Hin : Sample.job_empty_params !! "input"
                = Some (PDict Sample.job_input_empty_params)) by reflexivity.
  assert (Hd : Sample.job_input_empty_params !! "sampling_params" = Some (PDict ∅))
    by reflexivity.
  split; [exact Hin|]. split; [exact Hd|].
  destruct (@empty_sampling_params_as_absent Sample.collaborators _ _ Sample.idle Hin Hd)
    as (Hr & _ & Hsame & _).
  split; [exact Hr | exact Hsame].
Defined.

Lemma template_chosen_and_applied_witness :
  @issue_request Sample.collaborators Sample.job Sample.idle
    = (Ok (PDict Sample.job_input, agen_of_list Sample.states), Sample.sent) /\
  py_getitem (PDict Sample.job_input) "prompt" = Ok (PStr "Hi") /\
  select_template "meta-llama/Llama-2-7b-chat-hf" = DEFAULT_TEMPLATE /\
  exists sp,
    requests Sample.sent =
      [{| req_prompt := PStr "Hi"; req_sampling_params := sp;
          req_id := "request-0" |}].
Proof.
  assert (Hl : embeds_prompt (@template Sample.collaborators LLAMA_TEMPLATE)
                 "[INST] " " [/INST]") by (intros s; reflexivity).
  assert (Hd : embeds_prompt (@template Sample.collaborators DEFAULT_TEMPLATE) "" "")
    by (intros s; reflexivity).
  assert (Hp : py_getitem (PDict Sample.job_input) "prompt" = Ok (PStr "Hi"))
    by reflexivity.
  split; [exact sample_request|]. split; [exact Hp|].
  destruct (@template_chosen_and_applied Sample.collaborators Sample.job Sample.idle
              (PDict Sample.job_input) (agen_of_list Sample.states) Sample.sent
              "Hi" "[INST] " " [/INST]" "" "" Hl Hd sample_request Hp)
    as (_ & _ & sp & Hsent).
  split; [reflexivity|]. exists sp. exact Hsent.
Defined.

(** ** Remarks *)

(** Every streamed response points at the one metrics dict, so a consumer
    that reads the responses after the stream has ended finds the counts
    of the last state in each of them. *)
Remark late_reader_sees_last_counts :
  let run := @handler_streaming Sample.collaborators Sample.job Sample.idle in
  read_later (snd (snd run)) (fst run)
    = map (fun ro =>
             PDict (<["text" := PList (PStr <$> map text (outputs ro))]>
                    (<["runpod_internal" :=
                         PDict {[ "metrics" :=
                           PDict (attach (PDict Sample.job_input) Sample.state3
                                         (metrics Sample.idle)) ]}]> ∅)))
          Sample.states.
Proof. intros run. by_evaluation. Qed.

(** Validating the empty dict would give the twelve defaults as keyword
    arguments, which is not the call without arguments. *)
Remark validated_empty_dict :
  validate_sampling_params (PDict ∅)
    = Ok (config_of (PInt 1) PNone float_0 float_0 float_1 float_1 (PInt (-1))
                    (PBool false) PNone (PBool false) (PInt 256) PNone).
Proof. by_evaluation. Qed.

(** With the bare llama name as identifier, in any case, the prompt goes
    out inside the llama wrapper. *)
Remark bare_llama_request :
  requests (snd (@issue_request Sample.bare_llama Sample.job Sample.idle))
    = [{| req_prompt := PStr "[INST] Hi [/INST]";
          req_sampling_params := SamplingParams ∅;
          req_id := "request-0" |}].
Proof. by_evaluation. Qed.

Lemma lower_slash c : Lexer.lower c = "/"%char -> c = "/"%char.
Proof.
  destruct c as [[] [] [] [] [] [] [] []]; vm_compute; intros E;
    try reflexivity; discriminate E.
Qed.

Lemma no_slash_of_lower cs ks :
  map Lexer.lower cs = ks ->
  Forall (fun k => k <> "/"%char) ks ->
  Forall (fun c => c <> "/"%char) cs.
Proof.
  intros <- Hks. induction cs as [|c cs IH]; [constructor|].
  apply Forall_cons_1 in Hks. destruct Hks as [Hc Hcs].
  constructor; [|exact (IH Hcs)].
  intros ->. apply Hc. reflexivity.
Qed.

Lemma split_on_no_sep sep cs :
  Forall (fun c => c <> sep) cs -> split_on sep cs = [cs].
Proof.
  induction cs as [|c cs IH]; intros Hcs; [reflexivity|].
  apply Forall_cons_1 in Hcs. destruct Hcs as [Hc Hcs].
  simpl. rewrite (proj2 (Ascii.eqb_neq c sep) Hc), (IH Hcs). reflexivity.
Qed.

Lemma lower_word_has_no_slash name word :
  Lexer.str_lower name = word ->
  Forall (fun k => k <> "/"%char) (list_ascii_of_string word) ->
  split_on "/" (list_ascii_of_string name) = [list_ascii_of_string name].
Proof.
  intros Hname Hword. apply split_on_no_sep.
  apply (no_slash_of_lower _ (list_ascii_of_string word)); [|exact Hword].
  rewrite <- Hname. unfold Lexer.str_lower.
  symmetry. apply list_ascii_of_string_of_list_ascii.
Qed.

(** Line 32 takes the second component of [MODEL_NAME] split at ["/"],
    so the module only loads with an identifier that contains one; such
    an identifier equals neither llama name, and the handlers of a loaded
    module use [DEFAULT_TEMPLATE]. *)
Remark loaded_module_selects_default base name path :
  engine_model base name = Ok path -> select_template name = DEFAULT_TEMPLATE.
Proof.
  intros Hload.
  destruct (select_template name) eqn:Hsel; [|reflexivity].
  exfalso. apply select_template_llama in Hsel. revert Hload. unfold engine_model.
  destruct Hsel as [Hname | Hname];
    rewrite (lower_word_has_no_slash _ _ Hname);
    try discriminate;
    repeat constructor; discriminate.
Qed.

(** * Further properties *)

(** ** Validation *)

Lemma py_int_ok v x : py_int v = Ok x -> exists z, x = PInt z.
Proof.
  destruct v as [| | |f|s| |]; simpl; try discriminate;
    try (intros [= <-]; eauto; fail).
  - destruct f; try discriminate; intros [= <-]; eauto.
  - destruct (Lexer.parse_int s); [intros [= <-]; eauto | discriminate].
Qed.

Lemma py_float_ok v x : py_float v = Ok x -> exists f, x = PFloat f.
Proof.
  destruct v as [| |z| |s| |]; simpl; try discriminate;
    try (intros [= <-]; eauto; fail).
  - destruct (Float64.of_Z z); try discriminate; intros [= <-]; eauto.
  - destruct (Lexer.parse_float s); [intros [= <-]; eauto | discriminate].
Qed.

Lemma validate_int_policy v dflt n :
  validate_int v dflt = Ok n ->
  (py_int v = Raise TypeError \/ py_int v = Raise ValueError -> n = dflt) /\
  (forall x, py_int v = Ok x -> n = x) /\
  py_int v <> Raise OverflowError.
Proof.
  unfold validate_int. intros Hn. repeat split.
  - intros [E | E]; rewrite E in Hn; congruence.
  - intros x E. rewrite E in Hn. congruence.
  - intros E. rewrite E in Hn. discriminate.
Qed.

Lemma validate_float_policy v dflt n :
  validate_float v dflt = Ok n ->
  (py_float v = Raise TypeError \/ py_float v = Raise ValueError -> n = dflt) /\
  (forall x, py_float v = Ok x -> n = x) /\
  py_float v <> Raise OverflowError.
Proof.
  unfold validate_float. intros Hn. repeat split.
  - intros [E | E]; rewrite E in Hn; congruence.
  - intros x E. rewrite E in Hn. congruence.
  - intros E. rewrite E in Hn. discriminate.
Qed.

Lemma get_missing (d : gmap string pyval) key : d !! key = None -> get d key = PNone.
Proof. unfold get. intros ->. reflexivity. Qed.

(** X1. On a dict, [validate_sampling_params] either returns a
    configuration with exactly the twelve fields, which happens exactly
    when no conversion of a numeric field overflows, or it raises
    [OverflowError]; no other exception leaves it. *)
Theorem validation_returns_or_overflows (d : gmap string pyval) :
  (conversions_fit d /\
   exists r, validate_sampling_params (PDict d) = Ok r /\ dom r = config_fields) \/
  (~ conversions_fit d /\
   validate_sampling_params (PDict d) = Raise OverflowError).
Proof.
  destruct (validate_sampling_params (PDict d)) as [r|e] eqn:E.
  - left. split; [|exists r; split; [reflexivity|]].
    + apply validate_sampling_params_inv in E.
      destruct E as (n & bo & pp & fp & t & tp & tk & mt & lp & E).
      destruct E as (Hn & Hbo & Hpp & Hfp & Ht & Htp & Htk & Hmt & Hlp & _).
      split; repeat constructor;
        first [ eapply validate_int_policy; eassumption
              | eapply validate_float_policy; eassumption ].
    + eapply validate_sampling_params_complete, E.
  - right. assert (e = OverflowError) as -> by (eapply validate_sampling_params_raises, E).
    split; [|reflexivity].
    intros Hfit. destruct (validate_sampling_params_returns d Hfit) as (r & Hr & _).
    congruence.
Qed.



Lemma validate_int_shape v dflt n :
  validate_int v dflt = Ok n -> n = dflt \/ exists z, n = PInt z.
Proof.
  unfold validate_int. destruct (py_int v) as [x|e] eqn:E.
  - intros [= <-]. right. eapply py_int_ok, E.
  - destruct e; intros [= <-]; auto.
Qed.

Lemma validate_float_shape v dflt n :
  validate_float v dflt = Ok n -> n = dflt \/ exists f, n = PFloat f.
Proof.
  unfold validate_float. destruct (py_float v) as [x|e] eqn:E.
  - intros [= <-]. right. eapply py_float_ok, E.
  - destruct e; intros [= <-]; auto.
Qed.

(** X3. A returned configuration is a fixed point: validating it again
    returns it unchanged, and never raises. *)
Theorem validation_idempotent (d r : gmap string pyval) :
  validate_sampling_params (PDict d) = Ok r ->
  validate_sampling_params (PDict r) = Ok r.
Proof.
  intros Hr. apply validate_sampling_params_inv in Hr.
  destruct Hr as (n & bo & pp & fp & t & tp & tk & mt & lp & Hr).
  destruct Hr as (Hn & Hbo & Hpp & Hfp & Ht & Htp & Htk & Hmt & Hlp & ->).
  destruct (validate_bool_is_bool (get d "use_beam_search")) as [ubs ->].
  destruct (validate_bool_is_bool (get d "ignore_eos")) as [ie ->].
  generalize (get d "stop"). intros stop.
  assert (Hint : forall v z0 x, validate_int v (PInt z0) = Ok x -> exists z, x = PInt z).
  { intros v z0 x Hx. destruct (validate_int_shape _ _ _ Hx) as [-> | Hz]; eauto. }
  assert (Hfloat : forall v f0 x, validate_float v (PFloat f0) = Ok x ->
                                  exists f, x = PFloat f).
  { intros v f0 x Hx. destruct (validate_float_shape _ _ _ Hx) as [-> | Hf]; eauto. }
  apply Hint in Hn, Htk, Hmt. apply Hfloat in Hpp, Hfp, Ht, Htp.
  apply validate_int_shape in Hbo. apply validate_float_shape in Hlp.
  destruct Hn as [? ->], Htk as [? ->], Hmt as [? ->], Hpp as [? ->],
           Hfp as [? ->], Ht as [? ->], Htp as [? ->].
  destruct Hbo as [-> | [? ->]], Hlp as [-> | [? ->]]; by_evaluation.
Qed.

Lemma validation_idempotent_witness :
  validate_sampling_params (PDict sample_params) = Ok sample_config /\
  validate_sampling_params (PDict sample_config) = Ok sample_config.
Proof.
  split; [exact validate_sample_params|].
  exact (validation_idempotent sample_params sample_config validate_sample_params).
Defined.

(** ** The handlers *)

Section MoreHandlerFacts.

Context `{Collaborators}.

Implicit Types (w : world) (job job_input raw v : pyval) (g : agen)
               (d j m : gmap string pyval).

Lemma stream_loop_read_all job_input g w :
  read_on_arrival (fst (stream_loop job_input g w))
    = map (payload "text" job_input (metrics w)) (agen_states g).
Proof.
  revert w. induction g as [|ro rest IH|e]; intros w; [reflexivity| |reflexivity].
  cbn [stream_loop agen_states]. rewrite stream_turn_run.
  destruct (stream_loop job_input rest _) as [ems fin] eqn:E.
  simpl. f_equal.
  change ems with (fst (ems, fin)). rewrite <- E, IH. simpl.
  apply map_ext. intros ro'. apply payload_absorb.
Qed.

(** The loop writes the metrics dict and nothing else; when it is over
    the dict holds the counts of the last state yielded. *)
Lemma stream_loop_store job_input g w :
  snd (snd (stream_loop job_input g w))
    = with_metrics (match last (agen_states g) with
                    | Some ro => attach job_input ro (metrics w)
                    | None => metrics w
                    end) w.
Proof.
  revert w. induction g as [|ro rest IH|e]; intros w;
    [destruct w; reflexivity| |destruct w; reflexivity].
  cbn [stream_loop agen_states]. rewrite stream_turn_run.
  destruct (stream_loop job_input rest _) as [ems fin] eqn:E.
  cbn [snd]. change fin with (snd (ems, fin)). rewrite <- E, IH.
  rewrite last_cons. destruct (last (agen_states rest)) as [ro'|].
  - cbn [metrics with_metrics]. rewrite attach_absorb. reflexivity.
  - reflexivity.
Qed.

Lemma drain_run acc g :
  drain acc g =
    match agen_end g with
    | Ok _ => Ok (match last (agen_states g) with
                  | Some ro => Some ro
                  | None => acc
                  end)
    | Raise e => Raise e
    end.
Proof.
  revert acc. induction g as [|ro rest IH|e]; intros acc; [reflexivity| |reflexivity].
  cbn [drain agen_end agen_states]. rewrite IH, last_cons.
  destruct (agen_end rest); [|reflexivity].
  destruct (last (agen_states rest)); reflexivity.
Qed.

Lemma agen_of_states g : agen_end g = Ok tt -> g = agen_of_list (agen_states g).
Proof.
  induction g as [|ro rest IH|e]; simpl; intros Hend; [reflexivity| |discriminate].
  rewrite <- (IH Hend). reflexivity.
Qed.

Lemma validate_non_dict v :
  (forall d, v <> PDict d) -> validate_sampling_params v = Raise AttributeError.
Proof.
  intros Hv. destruct v; try reflexivity. exfalso. eapply Hv. reflexivity.
Qed.

Lemma resolve_falsy d v :
  d !! "sampling_params" = Some v ->
  py_truthy v = false ->
  resolve_sampling_params (PDict d) = new_SamplingParams ∅.
Proof.
  intros Hd Ht. unfold resolve_sampling_params. cbn [py_get mbind result_bind].
  rewrite Hd. change (default PNone (Some v)) with v. rewrite Ht. reflexivity.
Qed.

Lemma resolve_truthy d v :
  d !! "sampling_params" = Some v ->
  py_truthy v = true ->
  resolve_sampling_params (PDict d)
    = kwargs ← validate_sampling_params v; new_SamplingParams kwargs.
Proof.
  intros Hd Ht. unfold resolve_sampling_params. cbn [py_get mbind result_bind].
  rewrite Hd. change (default PNone (Some v)) with v. rewrite Ht. reflexivity.
Qed.

(** Two input dicts with the same prompt and the same resolved
    configuration give jobs that fare alike. *)
Lemma same_outcome_of_inputs j d d' w :
  j !! "input" = Some (PDict d) ->
  d' !! "prompt" = d !! "prompt" ->
  resolve_sampling_params (PDict d') = resolve_sampling_params (PDict d) ->
  same_outcome (PDict j) (PDict (<["input" := PDict d']> j)) w.
Proof.
  intros Hin Hp Hr.
  set (job := PDict j). set (job' := PDict (<["input" := PDict d']> j)).
  assert (Hq := issue_request_run job w).
  assert (Hq' := issue_request_run job' w).
  cbn [py_getitem job job'] in Hq, Hq'.
  rewrite Hin in Hq. rewrite lookup_insert_eq in Hq'.
  unfold py_getitem in Hq, Hq'. rewrite Hp, Hr in Hq'.
  destruct (d !! "prompt") as [raw|];
    [|eapply same_outcome_of_failures; [exact Hq|exact Hq'|reflexivity|reflexivity]].
  destruct (template (select_template MODEL_NAME) raw) as [p|e];
    [|eapply same_outcome_of_failures; [exact Hq|exact Hq'|reflexivity|reflexivity]].
  destruct (resolve_sampling_params (PDict d)) as [sp|e];
    [|eapply same_outcome_of_failures; [exact Hq|exact Hq'|reflexivity|reflexivity]].
  eapply same_outcome_of_requests; [exact Hq|exact Hq'|reflexivity|reflexivity].
Qed.

(** X4. Any falsy [sampling_params] ([None], [False], [0], [0.0], the
    empty string, list or dict) is treated as a missing key: the
    configuration comes from [SamplingParams()] without arguments, no
    field of the value is looked at, and the job fares as the same job
    without the key. *)
Theorem falsy_sampling_params_as_absent j d v w :
  j !! "input" = Some (PDict d) ->
  d !! "sampling_params" = Some v ->
  py_truthy v = false ->
  resolve_sampling_params (PDict d) = new_SamplingParams ∅ /\
  same_outcome (PDict j)
               (PDict (<["input" := PDict (delete "sampling_params" d)]> j)) w.
Proof.
  intros Hin Hd Ht.
  assert (Hr := resolve_falsy _ _ Hd Ht). split; [exact Hr|].
  apply (same_outcome_of_inputs j d); [exact Hin| |].
  - apply lookup_delete_ne. discriminate.
  - rewrite Hr. apply resolve_absent. apply lookup_delete_eq.
Qed.

(** X5. A [sampling_params] that is truthy but not a dict (a non-empty
    list or string, a non-zero number, [True]) has no [get] method: both
    handlers raise [AttributeError] out of the validation, before any
    request is sent. *)
Theorem non_dict_sampling_params_raise job d raw p v w :
  py_getitem job "input" = Ok (PDict d) ->
  d !! "prompt" = Some raw ->
  template (select_template MODEL_NAME) raw = Ok p ->
  d !! "sampling_params" = Some v ->
  py_truthy v = true ->
  (forall sp, v <> PDict sp) ->
  handler job w = (Raise AttributeError, printing [PrintJobReceived job] w) /\
  handler_streaming job w
    = ([], (Raise AttributeError, printing [PrintJobReceived job] w)) /\
  requests (printing [PrintJobReceived job] w) = requests w.
Proof.
  intros Hin Hraw Hp Hd Ht Hv.
  assert (Hreq : issue_request job w
                 = (Raise AttributeError, printing [PrintJobReceived job] w)).
  { rewrite issue_request_run, Hin. cbn [py_getitem]. rewrite Hraw, Hp.
    rewrite (resolve_truthy _ _ Hd Ht), (validate_non_dict _ Hv). reflexivity. }
  destruct (handler_request_fails _ _ _ _ Hreq) as [-> ->]. auto.
Qed.

Lemma py_getitem_raises obj key e :
  py_getitem obj key = Raise e -> e = KeyError key \/ e = TypeError.
Proof.
  destruct obj as [| | | | | |d]; simpl; try (intros [= <-]; auto; fail).
  destruct (d !! key); [discriminate | intros [= <-]; auto].
Qed.

(** X6. When reading [job['input']] or [job_input['prompt']] raises, which
    it does with [KeyError] on a missing key and with [TypeError] on a
    value that is not a dict, both handlers raise that exception: nothing
    is sent to the engine, nothing is yielded or returned. *)
Theorem unreadable_job_raises job e w :
  py_getitem job "input" = Raise e \/
  (exists job_input, py_getitem job "input" = Ok job_input /\
                     py_getitem job_input "prompt" = Raise e) ->
  (e = KeyError "input" \/ e = KeyError "prompt" \/ e = TypeError) /\
  handler job w = (Raise e, printing [PrintJobReceived job] w) /\
  handler_streaming job w = ([], (Raise e, printing [PrintJobReceived job] w)) /\
  requests (printing [PrintJobReceived job] w) = requests w.
Proof.
  intros Hread.
  assert (Hreq : issue_request job w = (Raise e, printing [PrintJobReceived job] w)).
  { rewrite issue_request_run.
    destruct Hread as [-> | (ji & -> & ->)]; reflexivity. }
  split.
  - destruct Hread as [He | (ji & _ & He)]; apply py_getitem_raises in He;
      destruct He; auto.
  - destruct (handler_request_fails _ _ _ _ Hreq) as [-> ->]. auto.
Qed.

Lemma issue_request_failure job w e w1 :
  issue_request job w = (Raise e, w1) -> w1 = printing [PrintJobReceived job] w.
Proof.
  rewrite issue_request_run.
  destruct (py_getitem job "input") as [ji|e0]; [|congruence].
  destruct (py_getitem ji "prompt") as [raw|e0]; [|congruence].
  destruct (template (select_template MODEL_NAME) raw) as [p|e0]; [|congruence].
  destruct (resolve_sampling_params ji) as [sp|e0]; congruence.
Qed.

(** X7. A call of either handler sends at most one request to the
    engine, under the identifier of one fresh draw; a call that fails
    before that point sends none and draws none. The two handlers send
    the same requests. *)
Theorem at_most_one_request job w :
  requests (snd (handler job w)) = requests (snd (snd (handler_streaming job w))) /\
  uuids_drawn (snd (handler job w)) = uuids_drawn (snd (snd (handler_streaming job w))) /\
  ((requests (snd (handler job w)) = requests w /\
    uuids_drawn (snd (handler job w)) = uuids_drawn w /\
    exists e, fst (handler job w) = Raise e) \/
   (exists p sp,
      requests (snd (handler job w))
        = requests w ++ [{| req_prompt := p; req_sampling_params := sp;
                            req_id := random_uuid (uuids_drawn w) |}] /\
      uuids_drawn (snd (handler job w)) = S (uuids_drawn w))).
Proof.
  destruct (issue_request job w) as [[[ji g]|e] w1] eqn:Hreq.
  - rewrite (handler_after_request _ _ _ _ _ Hreq).
    unfold handler_streaming. rewrite Hreq, stream_loop_store.
    apply issue_request_inv in Hreq.
    destruct Hreq as (raw & p & sp & _ & _ & _ & _ & _ & ->).
    split; [destruct (drain None g) as [[fo|]|e]; reflexivity|].
    split; [destruct (drain None g) as [[fo|]|e]; reflexivity|].
    right. exists p, sp.
    destruct (drain None g) as [[fo|]|e]; split; reflexivity.
  - destruct (handler_request_fails _ _ _ _ Hreq) as [-> ->].
    apply issue_request_failure in Hreq. subst w1.
    split; [reflexivity|]. split; [reflexivity|].
    left. simpl. eauto.
Qed.

(** X8. When the engine's generator raises, at once or after some
    states, [handler] raises the same exception and leaves the metrics
    dict as it was, without a response; [handler_streaming] has by then
    yielded one response for each state that came before, and raises the
    exception after them. *)
Theorem engine_failure_propagates job w job_input g w1 e :
  issue_request job w = (Ok (job_input, g), w1) ->
  agen_end g = Raise e ->
  handler job w = (Raise e, w1) /\
  metrics w1 = metrics w /\
  fst (snd (handler_streaming job w)) = Raise e /\
  read_on_arrival (fst (handler_streaming job w))
    = map (payload "text" job_input (metrics w)) (agen_states g).
Proof.
  intros Hreq Hend.
  rewrite (handler_after_request _ _ _ _ _ Hreq), drain_run, Hend.
  unfold handler_streaming. rewrite Hreq, stream_loop_end, stream_loop_read_all, Hend.
  apply issue_request_inv in Hreq.
  destruct Hreq as (raw & p & sp & _ & _ & _ & _ & _ & ->). auto.
Qed.

(** X9. The responses of one stream all point at the same metrics dict:
    read after the stream is over, each of them shows the job input and
    the token counts of the last state yielded, whatever state its own
    texts come from. *)
Theorem streamed_responses_share_metrics job w job_input g w1 final :
  issue_request job w = (Ok (job_input, g), w1) ->
  last (agen_states g) = Some final ->
  read_later (snd (snd (handler_streaming job w))) (fst (handler_streaming job w))
    = map (late_payload "text" job_input (metrics w) final) (agen_states g).
Proof.
  intros Hreq Hlast. unfold handler_streaming. rewrite Hreq.
  unfold read_later.
  rewrite <- (map_map em_value (render _)), stream_loop_values, stream_loop_store, Hlast.
  rewrite map_map. apply map_ext. intros ro.
  apply issue_request_inv in Hreq.
  destruct Hreq as (raw & p & sp & _ & _ & _ & _ & _ & ->). reflexivity.
Qed.

(** X10. On a non-empty run that ends normally the two handlers leave
    the same store behind, and the texts of the last streamed response
    are the outputs [handler] returns. *)
Theorem streaming_ends_where_handler_ends job w job_input init final_output w1 :
  issue_request job w = (Ok (job_input, agen_of_list (init ++ [final_output])), w1) ->
  snd (handler job w) = snd (snd (handler_streaming job w)) /\
  exists ret,
    fst (handler job w) = Ok ret /\
    last (map (fun em => resp_texts (em_value em)) (fst (handler_streaming job w)))
      = Some (resp_texts ret).
Proof.
  intros Hreq.
  rewrite (handler_after_request _ _ _ _ _ Hreq), drain_last.
  unfold handler_streaming. rewrite Hreq, stream_loop_store.
  rewrite <- (map_map em_value resp_texts), stream_loop_values.
  rewrite agen_states_of_list, last_snoc. split; [reflexivity|].
  eexists. split; [reflexivity|].
  rewrite map_map, map_app. cbn [map]. apply last_snoc.
Qed.

(** X11. A successful [handler] writes three keys of the engine's
    metrics dict and no other: [job_input] is the job's input as it came
    (unvalidated), [input_tokens] repeats the length of the prompt's
    token ids once per completion, [output_tokens] lists the length of
    each completion's token ids in order. *)
Theorem handler_writes_three_metrics_keys job w job_input init final_output w1 :
  issue_request job w = (Ok (job_input, agen_of_list (init ++ [final_output])), w1) ->
  py_getitem job "input" = Ok job_input /\
  metrics (snd (handler job w)) !! "job_input" = Some job_input /\
  metrics (snd (handler job w)) !! "input_tokens"
    = Some (PList (replicate (length (outputs final_output))
                     (PInt (Z.of_nat (length (prompt_token_ids final_output)))))) /\
  metrics (snd (handler job w)) !! "output_tokens"
    = Some (PList (map (fun o => PInt (Z.of_nat (length (token_ids o))))
                       (outputs final_output))) /\
  (forall key, key <> "job_input" -> key <> "input_tokens" -> key <> "output_tokens" ->
     metrics (snd (handler job w)) !! key = metrics w !! key).
Proof.
  intros Hreq.
  rewrite (handler_after_request _ _ _ _ _ Hreq), drain_last.
  apply issue_request_inv in Hreq.
  destruct Hreq as (raw & p & sp & Hin & _ & _ & _ & _ & ->).
  cbn [snd metrics with_metrics requested].
  split; [exact Hin|]. split; [apply attach_job_input|].
  split; [apply attach_input_tokens|]. split; [apply attach_output_tokens|].
  intros key H1 H2 H3. unfold attach.
  rewrite !lookup_insert_ne by congruence. reflexivity.
Qed.

Lemma handler_ok_inv job w ret w2 :
  handler job w = (Ok ret, w2) ->
  exists job_input init final_output w1,
    issue_request job w = (Ok (job_input, agen_of_list (init ++ [final_output])), w1) /\
    ret = {| resp_key := "outputs"; resp_texts := map text (outputs final_output);
             resp_metrics := engine_metrics |} /\
    w2 = with_metrics (attach job_input final_output (metrics w1)) w1.
Proof.
  intros Hrun.
  destruct (issue_request job w) as [[[ji g]|e] w1] eqn:Hreq.
  - rewrite (handler_after_request _ _ _ _ _ Hreq), drain_run in Hrun.
    destruct (agen_end g) as [[]|e] eqn:Hend; [|discriminate].
    destruct (last (agen_states g)) as [fo|] eqn:Hlast; [|discriminate].
    apply last_Some in Hlast. destruct Hlast as [init Hinit].
    injection Hrun as <- <-.
    exists ji, init, fo, w1. rewrite <- Hinit, <- (agen_of_states _ Hend). auto.
  - destruct (handler_request_fails _ _ _ _ Hreq) as [Hh _]. congruence.
Qed.

(** X12. [handler] returns a response exactly when its opening succeeds
    and the engine's run is non-empty and ends without an exception; the
    response and the store are then determined by the last state. *)
Theorem handler_returns_iff job w ret w2 :
  handler job w = (Ok ret, w2) <->
  exists job_input init final_output w1,
    issue_request job w = (Ok (job_input, agen_of_list (init ++ [final_output])), w1) /\
    ret = {| resp_key := "outputs"; resp_texts := map text (outputs final_output);
             resp_metrics := engine_metrics |} /\
    w2 = with_metrics (attach job_input final_output (metrics w1)) w1.
Proof.
  split; [apply handler_ok_inv|].
  intros (ji & init & fo & w1 & Hreq & -> & ->).
  rewrite (handler_after_request _ _ _ _ _ Hreq), drain_last. reflexivity.
Qed.

(** X13. Two jobs served one after the other send two requests, under
    two consecutive draws; when the second is done, the metrics dict is
    the engine's dict of before the first job with the second job's three
    keys on top: what the first job wrote has been overwritten. *)
Theorem consecutive_jobs job1 job2 w ret1 w1 ret2 w2 :
  handler job1 w = (Ok ret1, w1) ->
  handler job2 w1 = (Ok ret2, w2) ->
  (exists rq1 rq2,
     requests w2 = requests w ++ [rq1; rq2] /\
     req_id rq1 = random_uuid (uuids_drawn w) /\
     req_id rq2 = random_uuid (S (uuids_drawn w))) /\
  (exists job_input2 final2,
     py_getitem job2 "input" = Ok job_input2 /\
     resp_texts ret2 = map text (outputs final2) /\
     metrics w2 = attach job_input2 final2 (metrics w)).
Proof.
  intros H1 H2.
  apply handler_ok_inv in H1, H2.
  destruct H1 as (ji1 & init1 & fo1 & w1' & Hreq1 & -> & ->).
  destruct H2 as (ji2 & init2 & fo2 & w2' & Hreq2 & -> & ->).
  apply issue_request_inv in Hreq1, Hreq2.
  destruct Hreq1 as (raw1 & p1 & sp1 & Hin1 & Hraw1 & Hp1 & Hsp1 & Hg1 & ->).
  destruct Hreq2 as (raw2 & p2 & sp2 & Hin2 & Hraw2 & Hp2 & Hsp2 & Hg2 & ->).
  split.
  - eexists _, _. cbn [requests with_metrics requested uuids_drawn].
    rewrite <- app_assoc. split; [reflexivity|]. split; reflexivity.
  - exists ji2, fo2. split; [exact Hin2|]. split; [reflexivity|].
    cbn [metrics with_metrics requested]. apply attach_absorb.
Qed.

End MoreHandlerFacts.

(** ** Start-up *)

Lemma list_ascii_of_append a b :
  list_ascii_of_string (a +:+ b) = list_ascii_of_string a ++ list_ascii_of_string b.
Proof. induction a as [|c a IH]; simpl; [reflexivity|]. rewrite IH. reflexivity. Qed.

Lemma split_on_at_sep sep a b :
  Forall (fun c => c <> sep) a ->
  split_on sep (a ++ sep :: b) = a :: split_on sep b.
Proof.
  induction a as [|c a IH]; intros Ha; simpl.
  - rewrite Ascii.eqb_refl. reflexivity.
  - apply Forall_cons_1 in Ha. destruct Ha as [Hc Ha].
    rewrite (proj2 (Ascii.eqb_neq c sep) Hc), (IH Ha). reflexivity.
Qed.

Lemma split_on_nonempty sep cs : split_on sep cs <> [].
Proof.
  induction cs as [|c cs IH]; simpl; [discriminate|].
  destruct (Ascii.eqb c sep); [discriminate|].
  destruct (split_on sep cs); [contradiction|discriminate].
Qed.

Lemma split_on_head_no_sep sep cs :
  exists seg segs, split_on sep cs = seg :: segs /\ Forall (fun c => c <> sep) seg.
Proof.
  induction cs as [|c cs IH]; simpl.
  - exists [], []. split; [reflexivity|constructor].
  - destruct (Ascii.eqb c sep) eqn:Ec.
    + exists [], (split_on sep cs). split; [reflexivity|constructor].
    + destruct IH as (seg & segs & -> & Hseg).
      exists (c :: seg), segs. split; [reflexivity|].
      constructor; [apply Ascii.eqb_neq, Ec | exact Hseg].
Qed.

(** X14. The model path is the base path followed by the second
    ["/"]-separated component of [MODEL_NAME]: for [org/model] it is
    [base ++ model], a third component and what follows are dropped, and
    a name without ["/"] raises [IndexError]. *)
Theorem engine_model_second_component (base org model : string) :
  no_slash org ->
  no_slash model ->
  engine_model base (org +:+ "/" +:+ model) = Ok (base +:+ model) /\
  (forall rest, engine_model base (org +:+ "/" +:+ model +:+ "/" +:+ rest)
                = Ok (base +:+ model)) /\
  engine_model base org = Raise IndexError.
Proof.
  unfold no_slash, engine_model. intros Horg Hmodel.
  rewrite !list_ascii_of_append. cbn [list_ascii_of_string app].
  rewrite (split_on_at_sep _ _ _ Horg), (split_on_no_sep _ _ Hmodel).
  rewrite string_of_list_ascii_of_string.
  split; [reflexivity|]. split.
  - intros rest. rewrite !list_ascii_of_append. cbn [list_ascii_of_string app].
    rewrite (split_on_at_sep _ _ _ Horg), (split_on_at_sep _ _ _ Hmodel).
    rewrite string_of_list_ascii_of_string. reflexivity.
  - rewrite (split_on_no_sep _ _ Horg). reflexivity.
Qed.

Lemma engine_model_second_component_witness :
  no_slash "meta-llama" /\ no_slash "Llama-2-7b-chat-hf" /\
  engine_model "/runpod-volume/" "meta-llama/Llama-2-7b-chat-hf"
    = Ok "/runpod-volume/Llama-2-7b-chat-hf"%string.
Proof.
  assert (Ho : no_slash "meta-llama") by (repeat constructor; discriminate).
  assert (Hm : no_slash "Llama-2-7b-chat-hf") by (repeat constructor; discriminate).
  split; [exact Ho|]. split; [exact Hm|].
  exact (proj1 (engine_model_second_component "/runpod-volume/" "meta-llama"
                  "Llama-2-7b-chat-hf" Ho Hm)).
Defined.

Lemma num_gpu_shard_ok (env : gmap string string) :
  exists z, fst (num_gpu_shard env) = Ok (PInt z).
Proof.
  unfold num_gpu_shard, environ_get.
  destruct (env !! "NUM_GPU_SHARD") as [s|]; cbn [py_int]; [|eauto].
  destruct (Lexer.parse_int s); eauto.
Qed.


Lemma engine_model_succeeds base name :
  (exists path, engine_model base name = Ok path)
  <-> In "/"%char (list_ascii_of_string name).
Proof.
  unfold engine_model. split.
  - intros [path Hpath].
    destruct (in_dec ascii_dec "/"%char (list_ascii_of_string name)) as [Hin|Hnot];
      [exact Hin|].
    rewrite split_on_no_sep in Hpath; [discriminate|].
    apply Forall_forall. intros c Hc ->. apply list_elem_of_In in Hc. exact (Hnot Hc).
  - intros Hin. apply in_split in Hin. destruct Hin as (a & b & Hab).
    rewrite Hab. clear Hab. revert b. induction a as [|c a IH]; intros b.
    + simpl. destruct (split_on_head_no_sep "/" b) as (seg & segs & -> & _). eauto.
    + simpl. destruct (Ascii.eqb c "/").
      * destruct (split_on_head_no_sep "/" (a ++ "/"%char :: b)) as (seg & segs & -> & _).
        eauto.
      * destruct (IH b) as [path Hpath].
        destruct (split_on "/" (a ++ "/"%char :: b)) as [|seg [|seg2 segs]];
          try discriminate. eauto.
Qed.

(** X16. Start-up gets as far as the engine arguments exactly when
    [MODEL_NAME] is set and contains a ["/"]; it fails with
    [AttributeError] when the variable is unset and with [IndexError] when
    it is set without one. The shard count never makes it fail. *)
Theorem startup_succeeds_iff (env : gmap string string) :
  ((exists args, fst (startup env) = Ok args) <->
   exists name, env !! "MODEL_NAME" = Some name /\
                In "/"%char (list_ascii_of_string name)) /\
  (env !! "MODEL_NAME" = None -> fst (startup env) = Raise AttributeError) /\
  (forall name, env !! "MODEL_NAME" = Some name ->
                ~ In "/"%char (list_ascii_of_string name) ->
                fst (startup env) = Raise IndexError).
Proof.
  unfold startup.
  destruct (num_gpu_shard_ok env) as (z & Hz).
  destruct (num_gpu_shard env) as [r out2]. cbn [fst] in Hz. subst r.
  cbn [fst]. unfold environ_get.
  destruct (env !! "MODEL_NAME") as [name|].
  - set (base := default "/runpod-volume/"%string (env !! "MODEL_BASE_PATH")).
    assert (Hiff := engine_model_succeeds base name).
    destruct (engine_model base name) as [path|e] eqn:Hpath; cbn [mbind result_bind mret result_ret].
    + split; [|split; [discriminate|]].
      * split; [intros _; exists name; split; [reflexivity|apply Hiff; eauto] | eauto].
      * intros name' [= <-] Hnot. exfalso. apply Hnot, Hiff. eauto.
    + split; [|split; [discriminate|]].
      * split; [intros [args Hargs]; discriminate|].
        intros (name' & [= <-] & Hin). apply Hiff in Hin. destruct Hin. discriminate.
      * intros name' [= <-] Hnot. f_equal.
        unfold engine_model in Hpath.
        rewrite split_on_no_sep in Hpath; [cbn iota in Hpath; congruence|].
        apply Forall_forall. intros c Hc ->. apply list_elem_of_In in Hc. exact (Hnot Hc).
  - split; [|split; [reflexivity | discriminate]].
    split; [intros [args Hargs]; discriminate | intros (name & Hn & _); discriminate].
Qed.

Lemma startup_ok_inv (env : gmap string string) args :
  fst (startup env) = Ok args ->
  exists name path, env !! "MODEL_NAME" = Some name /\
                    engine_model (default "/runpod-volume/"%string
                                    (env !! "MODEL_BASE_PATH")) name = Ok path.
Proof.
  unfold startup.
  destruct (num_gpu_shard_ok env) as (z & Hz).
  destruct (num_gpu_shard env) as [r out2]. cbn [fst] in Hz. subst r.
  cbn [fst]. unfold environ_get.
  destruct (env !! "MODEL_NAME") as [name|]; [|discriminate].
  destruct (engine_model _ name) as [path|e] eqn:Hpath; [|discriminate].
  eauto.
Qed.

(** X17. In a module that got past start-up the handlers never select
    [LLAMA_TEMPLATE]: an identifier with a ["/"] equals neither llama
    name, so the prompt of every job goes through [DEFAULT_TEMPLATE]. *)
Theorem started_module_uses_default_template (env : gmap string string) args :
  fst (startup env) = Ok args ->
  exists name, env !! "MODEL_NAME" = Some name /\
               select_template name = DEFAULT_TEMPLATE.
Proof.
  intros Hargs. apply startup_ok_inv in Hargs.
  destruct Hargs as (name & path & Hname & Hpath).
  exists name. split; [exact Hname|].
  exact (loaded_module_selects_default _ _ _ Hpath).
Qed.

(** X18. The message about a missing model is only a message: with
    [MODEL_NAME] unset or empty it is the first line printed, and start-up
    then fails on line 32, with [AttributeError] when the variable is
    unset and with [IndexError] when it is empty. *)
Theorem startup_without_model (env : gmap string string) :
  env !! "MODEL_NAME" = None \/ env !! "MODEL_NAME" = Some ""%string ->
  In (PrintText "Error: The model has not been provided.") (snd (startup env)) /\
  snd (startup env)
    = PrintText "Error: The model has not been provided." :: snd (num_gpu_shard env) /\
  (env !! "MODEL_NAME" = None -> fst (startup env) = Raise AttributeError) /\
  (env !! "MODEL_NAME" = Some ""%string -> fst (startup env) = Raise IndexError).
Proof.
  intros Hname. unfold startup.
  destruct (num_gpu_shard_ok env) as (z & Hz).
  destruct (num_gpu_shard env) as [r out2]. cbn [fst] in Hz. subst r.
  unfold environ_get.
  destruct Hname as [Hname | Hname]; rewrite Hname;
    cbn [fst snd py_truthy String.eqb negb app];
    (split; [left; reflexivity|]); (split; [reflexivity|]); split;
    first [reflexivity | discriminate | intros _; reflexivity].
Qed.

(** ** The further properties at work on the sample deployment *)

Lemma falsy_sampling_params_as_absent_witness :
  Sample.job_null_params !! "input" = Some (PDict Sample.job_input_null_params) /\
  Sample.job_input_null_params !! "sampling_params" = Some PNone /\
  py_truthy PNone = false /\
  @resolve_sampling_params Sample.collaborators (PDict Sample.job_input_null_params)
    = Ok (SamplingParams ∅).
Proof.
  assert (Hin : Sample.job_null_params !! "input"
                = Some (PDict Sample.job_input_null_params)) by reflexivity.
  assert (Hd : Sample.job_input_null_params !! "sampling_params" = Some PNone)
    by reflexivity.
  split; [exact Hin|]. split; [exact Hd|]. split; [reflexivity|].
  exact (proj1 (@falsy_sampling_params_as_absent Sample.collaborators
                  _ _ PNone Sample.idle Hin Hd eq_refl)).
Defined.

Lemma non_dict_sampling_params_raise_witness :
  py_getitem Sample.job_list_params "input" = Ok (PDict Sample.job_input_list_params) /\
  Sample.job_input_list_params !! "sampling_params" = Some (PList [PStr "n"]) /\
  @handler Sample.collaborators Sample.job_list_params Sample.idle
    = (Raise AttributeError,
       printing [PrintJobReceived Sample.job_list_params] Sample.idle).
Proof.
  assert (Hin : py_getitem Sample.job_list_params "input"
                = Ok (PDict Sample.job_input_list_params)) by reflexivity.
  assert (Hd : Sample.job_input_list_params !! "sampling_params"
               = Some (PList [PStr "n"])) by reflexivity.
  split; [exact Hin|]. split; [exact Hd|].
  refine (proj1 (@non_dict_sampling_params_raise Sample.collaborators
                   Sample.job_list_params Sample.job_input_list_params
                   (PStr "Hi") (PStr "Hi") (PList [PStr "n"]) Sample.idle
                   Hin eq_refl eq_refl Hd eq_refl _)).
  intros sp. discriminate.
Defined.

Lemma unreadable_job_raises_witness :
  py_getitem Sample.job_without_input "input" = Raise (KeyError "input") /\
  @handler Sample.collaborators Sample.job_without_input Sample.idle
    = (Raise (KeyError "input"),
       printing [PrintJobReceived Sample.job_without_input] Sample.idle).
Proof.
  assert (Hin : py_getitem Sample.job_without_input "input" = Raise (KeyError "input"))
    by reflexivity.
  split; [exact Hin|].
  destruct (@unreadable_job_raises Sample.collaborators Sample.job_without_input
              (KeyError "input") Sample.idle (or_introl Hin)) as (_ & Hh & _).
  exact Hh.
Defined.

Lemma sample_request_failing :
  @issue_request Sample.failing Sample.job Sample.idle
    = (Ok (PDict Sample.job_input,
           Yield Sample.state1 (Throw (EngineError "engine stopped"))),
       Sample.sent).
Proof. by_evaluation. Qed.

Lemma engine_failure_propagates_witness :
  @issue_request Sample.failing Sample.job Sample.idle
    = (Ok (PDict Sample.job_input,
           Yield Sample.state1 (Throw (EngineError "engine stopped"))),
       Sample.sent) /\
  @handler Sample.failing Sample.job Sample.idle
    = (Raise (EngineError "engine stopped"), Sample.sent) /\
  read_on_arrival (fst (@handler_streaming Sample.failing Sample.job Sample.idle))
    = [payload "text" (PDict Sample.job_input) (metrics Sample.idle) Sample.state1].
Proof.
  split; [exact sample_request_failing|].
  destruct (@engine_failure_propagates Sample.failing Sample.job Sample.idle
              (PDict Sample.job_input)
              (Yield Sample.state1 (Throw (EngineError "engine stopped")))
              Sample.sent (EngineError "engine stopped")
              sample_request_failing eq_refl) as (Hh & _ & _ & Hread).
  split; [exact Hh | exact Hread].
Defined.

Lemma streamed_responses_share_metrics_witness :
  @issue_request Sample.collaborators Sample.job Sample.idle
    = (Ok (PDict Sample.job_input, agen_of_list Sample.states), Sample.sent) /\
  last (agen_states (agen_of_list Sample.states)) = Some Sample.state3 /\
  read_later
    (snd (snd (@handler_streaming Sample.collaborators Sample.job Sample.idle)))
    (fst (@handler_streaming Sample.collaborators Sample.job Sample.idle))
    = map (late_payload "text" (PDict Sample.job_input) (metrics Sample.idle)
             Sample.state3)
          (agen_states (agen_of_list Sample.states)).
Proof.
  split; [exact sample_request|]. split; [reflexivity|].
  exact (@streamed_responses_share_metrics Sample.collaborators Sample.job
           Sample.idle (PDict Sample.job_input) (agen_of_list Sample.states)
           Sample.sent Sample.state3 sample_request eq_refl).
Defined.

Lemma streaming_ends_where_handler_ends_witness :
  @issue_request Sample.collaborators Sample.job Sample.idle
    = (Ok (PDict Sample.job_input,
           agen_of_list ([Sample.state1; Sample.state2] ++ [Sample.state3])),
       Sample.sent) /\
  snd (@handler Sample.collaborators Sample.job Sample.idle)
    = snd (snd (@handler_streaming Sample.collaborators Sample.job Sample.idle)).
Proof.
  split; [exact sample_request|].
  exact (proj1 (@streaming_ends_where_handler_ends Sample.collaborators Sample.job
                  Sample.idle (PDict Sample.job_input)
                  [Sample.state1; Sample.state2] Sample.state3 Sample.sent
                  sample_request)).
Defined.

Lemma handler_writes_three_metrics_keys_witness :
  @issue_request Sample.collaborators Sample.job Sample.idle
    = (Ok (PDict Sample.job_input,
           agen_of_list ([Sample.state1; Sample.state2] ++ [Sample.state3])),
       Sample.sent) /\
  metrics (snd (@handler Sample.collaborators Sample.job Sample.idle)) !! "input_tokens"
    = Some (PList [PInt 2; PInt 2]) /\
  metrics (snd (@handler Sample.collaborators Sample.job Sample.idle)) !! "output_tokens"
    = Some (PList [PInt 3; PInt 1]).
Proof.
  split; [exact sample_request|].
  destruct (@handler_writes_three_metrics_keys Sample.collaborators Sample.job
              Sample.idle (PDict Sample.job_input)
              [Sample.state1; Sample.state2] Sample.state3 Sample.sent
              sample_request) as (_ & _ & Hin & Hout & _).
  split; [exact Hin | exact Hout].
Defined.

Lemma sample_first_job :
  @handler Sample.collaborators Sample.job Sample.idle
    = (Ok {| resp_key := "outputs";
             resp_texts := map text (outputs Sample.state3);
             resp_metrics := engine_metrics |},
       with_metrics (attach (PDict Sample.job_input) Sample.state3
                            (metrics Sample.idle)) Sample.sent).
Proof. by_evaluation. Qed.

Lemma sample_second_job :
  @handler Sample.collaborators Sample.job
     (with_metrics (attach (PDict Sample.job_input) Sample.state3
                           (metrics Sample.idle)) Sample.sent)
    = (Ok {| resp_key := "outputs";
             resp_texts := map text (outputs Sample.state3);
             resp_metrics := engine_metrics |},
       snd (@handler Sample.collaborators Sample.job
              (with_metrics (attach (PDict Sample.job_input) Sample.state3
                                    (metrics Sample.idle)) Sample.sent))).
Proof. by_evaluation. Qed.

Lemma consecutive_jobs_witness :
  @handler Sample.collaborators Sample.job Sample.idle
    = (Ok {| resp_key := "outputs";
             resp_texts := map text (outputs Sample.state3);
             resp_metrics := engine_metrics |},
       with_metrics (attach (PDict Sample.job_input) Sample.state3
                            (metrics Sample.idle)) Sample.sent) /\
  exists rq1 rq2,
    requests (snd (@handler Sample.collaborators Sample.job
                     (with_metrics (attach (PDict Sample.job_input) Sample.state3
                                           (metrics Sample.idle)) Sample.sent)))
      = requests Sample.idle ++ [rq1; rq2] /\
    req_id rq1 = "request-0"%string /\
    req_id rq2 = "request-1"%string.
Proof.
  split; [exact sample_first_job|].
  destruct (@consecutive_jobs Sample.collaborators Sample.job Sample.job Sample.idle
              _ _ _ _ sample_first_job sample_second_job)
    as ((rq1 & rq2 & Hrq & H1 & H2) & _).
  exists rq1, rq2. split; [exact Hrq|]. split; [exact H1 | exact H2].
Defined.

Lemma sample_startup :
  fst (startup Sample.environment)
    = Ok {| ea_model := "/runpod-volume/Llama-2-7b-chat-hf";
            ea_tokenizer := PNone;
            ea_tensor_parallel_size := PInt 1 |}.
Proof. by_evaluation. Qed.

Lemma started_module_uses_default_template_witness :
  fst (startup Sample.environment)
    = Ok {| ea_model := "/runpod-volume/Llama-2-7b-chat-hf";
            ea_tokenizer := PNone;
            ea_tensor_parallel_size := PInt 1 |} /\
  exists name, Sample.environment !! "MODEL_NAME" = Some name /\
               select_template name = DEFAULT_TEMPLATE.
Proof.
  split; [exact sample_startup|].
  exact (started_module_uses_default_template Sample.environment _ sample_startup).
Defined.

Lemma startup_without_model_witness :
  ((∅ : gmap string string) !! "MODEL_NAME" = None /\
   fst (startup ∅) = Raise AttributeError) /\
  (({[ "MODEL_NAME" := ""%string ]} : gmap string string) !! "MODEL_NAME"
     = Some ""%string /\
   fst (startup {[ "MODEL_NAME" := ""%string ]}) = Raise IndexError) /\
  In (PrintText "Error: The model has not been provided.") (snd (startup ∅)).
Proof.
  split; [split; [reflexivity|]|split; [split; [reflexivity|]|]].
  - exact (proj1 (proj2 (proj2 (startup_without_model ∅ (or_introl eq_refl))))
             eq_refl).
  - exact (proj2 (proj2 (proj2 (startup_without_model {[ "MODEL_NAME" := ""%string ]}
                                  (or_intror eq_refl))))
             eq_refl).
  - exact (proj1 (startup_without_model ∅ (or_introl eq_refl))).
Defined.

(** ** What reaches the engine *)

(** X19. A value that already has the type of its field comes back
    unchanged, whatever it is: an integer for [n], [best_of], [top_k] or
    [max_tokens], a float for one of the five float fields. No range is
    checked, so zero, negative numbers, infinities and nan all pass. *)
Theorem typed_values_pass_unchecked (d r : gmap string pyval) :
  validate_sampling_params (PDict d) = Ok r ->
  (forall key z, In key ["n"; "best_of"; "top_k"; "max_tokens"]%string ->
                 d !! key = Some (PInt z) -> r !! key = Some (PInt z)) /\
  (forall key f, In key ["presence_penalty"; "frequency_penalty"; "temperature";
                         "top_p"; "logprobs"]%string ->
                 d !! key = Some (PFloat f) -> r !! key = Some (PFloat f)).
Proof.
  intros Hr. apply validate_sampling_params_inv in Hr.
  destruct Hr as (n & bo & pp & fp & t & tp & tk & mt & lp & Hr).
  destruct Hr as (Hn & Hbo & Hpp & Hfp & Ht & Htp & Htk & Hmt & Hlp & ->).
  split; intros key x Hkey Hd; cbn [In] in Hkey;
    repeat (destruct Hkey as [<- | Hkey]); try contradiction;
    match goal with
    | Hv : validate_int (get d ?k) _ = Ok ?v |- ?c !! ?k = Some _ =>
        replace (c !! k) with (Some v) by reflexivity;
        unfold get in Hv; rewrite Hd in Hv; injection Hv as <-; reflexivity
    | Hv : validate_float (get d ?k) _ = Ok ?v |- ?c !! ?k = Some _ =>
        replace (c !! k) with (Some v) by reflexivity;
        unfold get in Hv; rewrite Hd in Hv; injection Hv as <-; reflexivity
    end.
Qed.

Lemma validate_unchecked_params :
  validate_sampling_params (PDict Sample.unchecked_params) = Ok Sample.unchecked_config.
Proof. by_evaluation. Qed.

Lemma typed_values_pass_unchecked_witness :
  validate_sampling_params (PDict Sample.unchecked_params) = Ok Sample.unchecked_config /\
  Sample.unchecked_config !! "n" = Some (PInt 0) /\
  Sample.unchecked_config !! "temperature" = Some (PFloat Float64.nan).
Proof.
  split; [exact validate_unchecked_params|].
  destruct (typed_values_pass_unchecked _ _ validate_unchecked_params) as [Hi Hf].
  split.
  - apply Hi; [left; reflexivity | reflexivity].
  - apply Hf; [right; right; left; reflexivity | reflexivity].
Defined.

Section RequestContents.

Context `{Collaborators}.

(** X20. When a job with a non-empty [sampling_params] dict gets as far
    as the engine, the configuration sent is built from the validated
    dict: it has exactly the twelve known keyword arguments, so a key the
    handler does not know never reaches the engine, and the constructor
    has accepted it. *)
Theorem request_carries_validated_config job w job_input g w1 sp :
  issue_request job w = (Ok (job_input, g), w1) ->
  py_getitem job_input "sampling_params" = Ok (PDict sp) ->
  sp <> ∅ ->
  exists p kwargs,
    validate_sampling_params (PDict sp) = Ok kwargs /\
    dom kwargs = config_fields /\
    sampling_params_init kwargs = None /\
    requests w1 = requests w ++
      [{| req_prompt := p; req_sampling_params := SamplingParams kwargs;
          req_id := random_uuid (uuids_drawn w) |}].
Proof.
  intros Hreq Hget Hsp.
  apply issue_request_inv in Hreq.
  destruct Hreq as (raw & p & spc & _ & _ & _ & Hres & _ & ->).
  destruct job_input as [| | | | | |d]; try discriminate.
  cbn [py_getitem] in Hget.
  destruct (d !! "sampling_params") as [v|] eqn:Hd; [|discriminate].
  injection Hget as ->.
  rewrite (resolve_dict _ _ Hd) in Hres.
  case_decide; [contradiction|].
  destruct (validate_sampling_params (PDict sp)) as [kwargs|e] eqn:Hv; [|discriminate].
  cbn [mbind result_bind] in Hres. unfold new_SamplingParams in Hres.
  destruct (sampling_params_init kwargs) eqn:Hinit; [discriminate|].
  injection Hres as <-.
  exists p, kwargs. split; [reflexivity|].
  split; [eapply validate_sampling_params_complete, Hv|]. split; [exact Hinit|].
  reflexivity.
Qed.

End RequestContents.

Lemma sample_request_with_params :
  @issue_request Sample.collaborators Sample.job_with_params Sample.idle
    = (Ok (PDict Sample.job_input_with_params, agen_of_list Sample.states),
       @requested Sample.collaborators Sample.job_with_params
          (PDict Sample.job_input_with_params) (PStr "Hi")
          (SamplingParams sample_config) Sample.idle).
Proof. by_evaluation. Qed.

Lemma request_carries_validated_config_witness :
  py_getitem (PDict Sample.job_input_with_params) "sampling_params"
    = Ok (PDict (<["seed" := PInt 7]> sample_params)) /\
  exists p kwargs,
    dom kwargs = config_fields /\
    requests (snd (@issue_request Sample.collaborators Sample.job_with_params
                     Sample.idle))
      = [{| req_prompt := p; req_sampling_params := SamplingParams kwargs;
            req_id := "request-0" |}].
Proof.
  assert (Hget : py_getitem (PDict Sample.job_input_with_params) "sampling_params"
                 = Ok (PDict (<["seed" := PInt 7]> sample_params))) by reflexivity.
  split; [exact Hget|].
  destruct (@request_carries_validated_config Sample.collaborators
              Sample.job_with_params Sample.idle _ _ _ _
              sample_request_with_params Hget (insert_non_empty _ _ _))
    as (p & kwargs & _ & Hdom & _ & Hsent).
  exists p, kwargs. split; [exact Hdom|].
  rewrite sample_request_with_params. exact Hsent.
Defined.

(** ** The llama template *)

(** C6. The handlers mean to give [llama-2-7b-chat-hf] a template of its
    own: on that identifier, in any case, lines 124 and 185 select
    [LLAMA_TEMPLATE]. But a module configured with it never serves a job:
    line 32 takes the second ["/"]-component of the identifier and raises
    [IndexError]. Under the name the model is published with,
    [meta-llama/Llama-2-7b-chat-hf], the module starts, and the handlers
    select [DEFAULT_TEMPLATE], as for any other model: the prompt goes out
    in the default wrapper, not in the llama one. *)
Theorem llama_template_never_applied :
  select_template "llama-2-7b-chat-hf" = LLAMA_TEMPLATE /\
  fst (startup {[ "MODEL_NAME" := "llama-2-7b-chat-hf"%string ]}) = Raise IndexError /\
  (forall (env : gmap string string) name,
     env !! "MODEL_NAME" = Some name ->
     Lexer.str_lower name = "llama-2-7b-chat-hf"%string ->
     select_template name = LLAMA_TEMPLATE /\
     fst (startup env) = Raise IndexError) /\
  fst (startup {[ "MODEL_NAME" := "meta-llama/Llama-2-7b-chat-hf"%string ]})
    = Ok {| ea_model := "/runpod-volume/Llama-2-7b-chat-hf";
            ea_tokenizer := PNone;
            ea_tensor_parallel_size := PInt 1 |} /\
  select_template "meta-llama/Llama-2-7b-chat-hf"
    = select_template "mistralai/Mistral-7B-v0.1" /\
  select_template "meta-llama/Llama-2-7b-chat-hf" = DEFAULT_TEMPLATE /\
  map req_prompt
      (requests (snd (@issue_request Sample.collaborators Sample.job Sample.idle)))
    = [PStr "Hi"] /\
  map req_prompt
      (requests (snd (@issue_request Sample.bare_llama Sample.job Sample.idle)))
    = [PStr "[INST] Hi [/INST]"].
Proof.
  split; [reflexivity|]. split; [by_evaluation|]. split.
  - intros env name Hname Hlower. split.
    + apply select_template_llama. left. exact Hlower.
    + unfold startup.
      destruct (num_gpu_shard_ok env) as (z & Hz).
      destruct (num_gpu_shard env) as [r out2]. cbn [fst] in Hz. subst r.
      cbn [fst]. unfold environ_get. rewrite Hname. unfold engine_model.
      rewrite (lower_word_has_no_slash _ _ Hlower); [reflexivity|].
      repeat constructor; discriminate.
  - split; [by_evaluation|]. split; [reflexivity|]. split; [reflexivity|].
    split; by_evaluation.
Qed.
